(** * os-brick-go: the Fibre Channel volume connector, embedded in Rocq

    A shallow embedding of [utils.go], [initiator/linuxfc.go],
    [initiator/linuxscsi.go], [initiator/connectors/fibre_channel.go] and
    [initiator/connectors/base.go].

    - Go strings are byte strings ([string]); the [strings] and [strconv]
      functions the code calls are written out below for ASCII input.
    - Go [int] is a 64-bit integer, modelled as [Z] within [int_range].
    - [interface{}] values are the tagged union [value].
    - [map[string]T] is a [gmap string T].
    - Everything that touches the host (processes, sysfs, symlinks, the
      ticker) goes through the record [OS] and is threaded through the
      monad [M], which also carries panics and the log. *)

From Stdlib Require Import ZArith Ascii String List Bool Lia.
From stdpp Require Import base option list gmap strings.

Import ListNotations.
Local Open Scope string_scope.
Local Open Scope list_scope.
Local Open Scope Z_scope.

Set Warnings "-register-all".

(** ** Go's [strings] package, on ASCII byte strings *)

Module GoStrings.

Notation "a +++ b" := (String.append a b)
  (at level 60, right associativity) : string_scope.

Definition chr_eqb (a b : ascii) : bool := Ascii.eqb a b.

(** [strings.Split(s, sep)] for a one-byte separator: [Count(s, sep) + 1]
    pieces, so [Split("", sep)] is [[""]]. *)
Fixpoint Split (s : string) (sep : ascii) : list string :=
  match s with
  | EmptyString => [EmptyString]
  | String c s' =>
      if chr_eqb c sep then EmptyString :: Split s' sep
      else match Split s' sep with
           | [] => [String c EmptyString]
           | x :: xs => String c x :: xs
           end
  end.

(** [strings.HasPrefix(s, prefix)] *)
Fixpoint HasPrefix (s prefix : string) : bool :=
  match prefix, s with
  | EmptyString, _ => true
  | String _ _, EmptyString => false
  | String p ps, String c cs => chr_eqb c p && HasPrefix cs ps
  end.

(** [strings.Contains(s, substr)] *)
Fixpoint Contains (s substr : string) : bool :=
  HasPrefix s substr ||
  match s with
  | EmptyString => false
  | String _ s' => Contains s' substr
  end.

Fixpoint drop (n : nat) (s : string) : string :=
  match n, s with
  | O, _ => s
  | S _, EmptyString => EmptyString
  | S n', String _ s' => drop n' s'
  end.

(** [strings.Replace(s, old, new, n)] for a non-empty [old]; [n = None]
    is Go's [n < 0] (no limit), which is what [ReplaceAll] passes. *)
Fixpoint replace_go (fuel : nat) (s old new : string) (n : option nat)
  : string :=
  match fuel with
  | O => s
  | S fuel' =>
      match n with
      | Some O => s
      | _ =>
          match s with
          | EmptyString => EmptyString
          | String c s' =>
              if HasPrefix s old
              then new +++ replace_go fuel' (drop (String.length old) s)
                             old new (option_map Nat.pred n)
              else String c (replace_go fuel' s' old new n)
          end
      end
  end.

Definition Replace (s old new : string) (n : nat) : string :=
  replace_go (S (String.length s)) s old new (Some n).

Definition ReplaceAll (s old new : string) : string :=
  replace_go (S (String.length s)) s old new None.

(** ASCII white space, as [unicode.IsSpace] has it below 0x80. *)
Definition isSpace (c : ascii) : bool :=
  let n := nat_of_ascii c in
  ((9 <=? n) && (n <=? 13))%nat || (n =? 32)%nat.

Fixpoint inCutset (c : ascii) (cutset : string) : bool :=
  match cutset with
  | EmptyString => false
  | String d ds => chr_eqb c d || inCutset c ds
  end.

Fixpoint trimLeftFunc (f : ascii -> bool) (s : string) : string :=
  match s with
  | EmptyString => EmptyString
  | String c s' => if f c then trimLeftFunc f s' else s
  end.

Fixpoint trimRightFunc (f : ascii -> bool) (s : string) : string :=
  match s with
  | EmptyString => EmptyString
  | String c s' =>
      match trimRightFunc f s' with
      | EmptyString => if f c then EmptyString else String c EmptyString
      | r => String c r
      end
  end.

(** [strings.TrimLeft(s, cutset)] *)
Definition TrimLeft (s cutset : string) : string :=
  trimLeftFunc (fun c => inCutset c cutset) s.

(** [strings.TrimSpace(s)] *)
Definition TrimSpace (s : string) : string :=
  trimRightFunc isSpace (trimLeftFunc isSpace s).

Definition lowerChar (c : ascii) : ascii :=
  let n := nat_of_ascii c in
  if ((65 <=? n) && (n <=? 90))%nat then ascii_of_nat (n + 32) else c.

(** [strings.ToLower(s)] *)
Fixpoint ToLower (s : string) : string :=
  match s with
  | EmptyString => EmptyString
  | String c s' => String (lowerChar c) (ToLower s')
  end.

Definition isDigit (c : ascii) : bool :=
  let n := nat_of_ascii c in ((48 <=? n) && (n <=? 57))%nat.

(** [\w] of Go's regexp syntax: [[0-9A-Za-z_]]. *)
Definition isWord (c : ascii) : bool :=
  let n := nat_of_ascii c in
  isDigit c || ((65 <=? n) && (n <=? 90))%nat
  || ((97 <=? n) && (n <=? 122))%nat || (n =? 95)%nat.

(** The double quote and the newline, as one-byte strings. *)
Definition dquote : string := String (ascii_of_nat 34) EmptyString.
Definition nl : ascii := ascii_of_nat 10.

End GoStrings.
Export GoStrings.

(** ** Go [int] and [strconv] *)

Definition int_min : Z := - 2 ^ 63.
Definition int_max : Z := 2 ^ 63 - 1.
Definition int_range (z : Z) : Prop := int_min <= z <= int_max.

(** Go's [error] values.  [fmt.Errorf] keeps its format string and the
    error it renders with [%v], if any; the other arguments only render
    text. *)
Inductive error : Type :=
| ErrOS (msg : string)                       (* from exec / the file system *)
| ErrSyntax (fn s : string)                  (* strconv.ErrSyntax *)
| ErrRange (fn s : string)                   (* strconv.ErrRange *)
| Errorf (format : string)                   (* fmt.Errorf, nothing wrapped *)
| Wrapf (format : string) (cause : error).   (* fmt.Errorf with the cause as %v *)

Fixpoint parseDigits (s : string) (acc : Z) : option Z :=
  match s with
  | EmptyString => Some acc
  | String c s' =>
      if isDigit c
      then parseDigits s' (acc * 10 + (Z.of_nat (nat_of_ascii c) - 48))
      else None
  end.

(** [strconv.Atoi]: an optional sign and one or more decimal digits, the
    value within the 64-bit range. *)
Definition Atoi (s : string) : Z + error :=
  let '(neg, body) :=
    match s with
    | String "-"%char r => (true, r)
    | String "+"%char r => (false, r)
    | _ => (false, s)
    end in
  match body with
  | EmptyString => inr (ErrSyntax "Atoi" s)
  | _ =>
      match parseDigits body 0 with
      | None => inr (ErrSyntax "Atoi" s)
      | Some n =>
          let v := if neg then - n else n in
          if (int_min <=? v) && (v <=? int_max) then inl v
          else inr (ErrRange "Atoi" s)
      end
  end.

(** ** [fmt] verbs used by the code *)

Definition hexDigit (d : Z) : ascii :=
  match String.get (Z.to_nat d) "0123456789abcdef" with
  | Some c => c
  | None => "0"%char
  end.

Fixpoint hexDigits (fuel : nat) (n : Z) (acc : string) : string :=
  match fuel with
  | O => acc
  | S fuel' =>
      let acc' := String (hexDigit (n mod 16)) acc in
      if n / 16 =? 0 then acc' else hexDigits fuel' (n / 16) acc'
  end.

Fixpoint zeros (n : nat) : string :=
  match n with
  | O => EmptyString
  | S n' => String "0"%char (zeros n')
  end.

(** [%04x] of a non-negative [int]: lower-case hexadecimal, padded with
    zeros on the left to at least four digits. *)
Definition fmt_04x (n : Z) : string :=
  let d := hexDigits 16 n EmptyString in
  zeros (4 - String.length d) +++ d.

Fixpoint decDigits (fuel : nat) (n : Z) (acc : string) : string :=
  match fuel with
  | O => acc
  | S fuel' =>
      let acc' := String (ascii_of_nat (Z.to_nat (48 + n mod 10))) acc in
      if n / 10 =? 0 then acc' else decDigits fuel' (n / 10) acc'
  end.

(** [%v] / [%d] of an [int]. *)
Definition fmt_d (n : Z) : string :=
  if n <? 0 then String "-"%char (decDigits 20 (- n) EmptyString)
  else decDigits 20 n EmptyString.

(** ** Dynamically typed values *)

(** Modelled from the spec: the declarations of [initiator.Target] and
    [initiator.Device] are not part of the sources at hand.  The spec has
    a Target as "an ordered pair (WWPN, LUN), both represented as
    normalized lowercase/string values" and a candidate device as "an
    ephemeral tuple (PCI/host id, target WWPN in 0x-prefixed hex, LUN)";
    the code reads them as [t[0]], [t[1]] and [d[0]], [d[1]], [d[2]]. *)
Record Target : Type := mkTarget { t_wwpn : string; t_lun : string }.
Record Device : Type := mkDevice { d_pci : string; d_wwn : string; d_lun : string }.

(** [HBA], [MultipathDevice] and the device records are [map[string]string]. *)
Abbreviation HBA := (gmap string string).
Abbreviation MultipathDevice := (gmap string string).

(** The dynamic types an [interface{}] holds in this code. *)
Inductive value : Type :=
| VNil
| VInt (n : Z)
| VString (s : string)
| VBool (b : bool)
| VStrings (l : list string)                 (* []string *)
| VList (l : list value)                     (* []interface{} *)
| VTargets (l : list Target)                 (* []initiator.Target *)
| VMapStrings (m : gmap string (list string))(* map[string][]string *)
| VMultipathDevices (l : list MultipathDevice) (* []MultipathDevice *)
| VMapIface (m : gmap string value).         (* map[string]interface{} *)

(** [m[k]] on a [map[string]interface{}]: the zero value [nil] when absent. *)
Definition index (m : gmap string value) (k : string) : value :=
  default VNil (m !! k).

(** A Go call either returns or panics. *)
Inductive outcome (A : Type) : Type :=
| Ret (a : A)
| Panic (msg : string).
Arguments Ret {A} a.
Arguments Panic {A} msg.

(** ** LUN normalization ([initiator/linuxscsi.go]) *)

Definition formatLunID (x : value) : value + error :=
  match x with
  | VInt lunID =>
      if lunID <? 256 then inl (VInt lunID)
      else inl (VString ("0x" +++ fmt_04x (Z.land lunID 65535)
                              +++ fmt_04x (Z.land (Z.shiftr lunID 16) 65535)
                              +++ "00000000"))
  | VString s =>
      match Atoi s with
      | inr _ => inr (Errorf "lun_id cannot convert to int: %s")
      | inl i => inl (VInt i)
      end
  | _ => inr (Errorf "lun_id should be int value: %#v")
  end.

Fixpoint formatLunIDs (ids : list value) (processed : list value)
  : list value + error :=
  match ids with
  | [] => inl processed
  | x :: rest =>
      match formatLunID x with
      | inl xx => formatLunIDs rest (processed ++ [xx])
      | inr err => inr err
      end
  end.

Definition ProcessLunID (lunIDs : value) : value + error :=
  match lunIDs with
  | VList ids =>
      match formatLunIDs ids [] with
      | inl processed => inl (VList processed)
      | inr err => inr err
      end
  | _ =>
      match formatLunID lunIDs with
      | inr err => inr err
      | inl processed => inl processed
      end
  end.

(** ** The host: processes, files, time *)

Inductive stat_result : Type :=
| StatOk            (* os.Stat returned no error *)
| StatNotExist      (* an error for which os.IsNotExist holds *)
| StatOtherErr.     (* any other error *)

(** What a run leaves behind, oldest first. Durations are in seconds. *)
Inductive Event : Type :=
| EvExec (name : string) (args : list string)
| EvExecTimeout (timeout : Z) (name : string) (args : list string)
| EvStat (path : string)
| EvEvalSymlinks (path : string)
| EvReaddirnames (path : string)
| EvTick (interval : Z)
| EvLog (format : string).

(** The host as the code sees it.  Every query may change the world: the
    kernel creates and removes devices on its own schedule. *)
Record OS (World : Type) : Type := mkOS {
  (* exec.Command(name, arg...).CombinedOutput() *)
  os_combined_output : string -> list string -> World -> (string * option error) * World;
  (* c.Start(), then the race between c.Process.Wait() and the timeout
     (with the kill on timeout): the start error, or stdout and stderr
     as the buffers hold them afterwards *)
  os_start_wait : Z -> string -> list string -> World -> (error + (string * string)) * World;
  (* os.Stat(file) *)
  os_stat : string -> World -> stat_result * World;
  (* filepath.EvalSymlinks(path) *)
  os_eval_symlinks : string -> World -> (string * option error) * World;
  (* os.Open(dir) followed by Readdirnames(-1) *)
  os_readdirnames : string -> World -> (error + (error + list string)) * World;
  (* one receive from ticker.C *)
  os_tick : Z -> World -> World
}.
Arguments os_combined_output {World}.
Arguments os_start_wait {World}.
Arguments os_stat {World}.
Arguments os_eval_symlinks {World}.
Arguments os_readdirnames {World}.
Arguments os_tick {World}.

Record St (World : Type) : Type := mkSt {
  world : World;
  trace : list Event
}.
Arguments mkSt {World}.
Arguments world {World}.
Arguments trace {World}.

(** State, log and panics. *)
Definition M (World A : Type) : Type := St World -> outcome A * St World.

Definition ret {W A} (a : A) : M W A := fun st => (Ret a, st).

Definition bind {W A B} (m : M W A) (k : A -> M W B) : M W B :=
  fun st =>
    match m st with
    | (Ret a, st') => k a st'
    | (Panic msg, st') => (Panic msg, st')
    end.

Definition panic {W A} (msg : string) : M W A := fun st => (Panic msg, st).

Definition emit {W} (e : Event) : M W unit :=
  fun st => (Ret tt, mkSt (world st) (trace st ++ [e])).

(** A query of the host, recorded in the trace. *)
Definition ask {W A} (e : Event) (q : W -> A * W) : M W A :=
  fun st =>
    let '(a, w') := q (world st) in
    (Ret a, mkSt w' (trace st ++ [e])).

#[global] Instance M_ret {W} : MRet (M W) := fun A a => ret a.
#[global] Instance M_bind {W} : MBind (M W) := fun A B k m => bind m k.

(** [log.Printf] / [log.Print]: the format string is kept. *)
Definition log_printf {W} (format : string) : M W unit := emit (EvLog format).

(** ** [utils.go] *)

Section Utils.
Context {W : Type} (os : OS W).

Definition Execute (name : string) (arg : list string)
  : M W (string * option error) :=
  ask (EvExec name arg) (os_combined_output os name arg).

Definition ExecWithTimeout (timeout : Z) (name : string) (args : list string)
  : M W (string * option error) :=
  r ← ask (EvExecTimeout timeout name args) (os_start_wait os timeout name args);
  match r with
  | inl err => ret (EmptyString, Some err)
  | inr (stdout, stderr) =>
      if (0 <? String.length stderr)%nat
      then ret (stdout, Some (ErrOS stderr))
      else ret (stdout, None)
  end.

Definition IsFileExists (file : string) : M W bool :=
  r ← ask (EvStat file) (os_stat os file);
  match r with
  | StatOk => ret true
  | StatNotExist => ret false
  | StatOtherErr => ret false
  end.

(** The [for { select { case <-ticker.C: ... } }] loop of [RunWithRetry].
    [C] is what the closure captures and assigns.  Each round either
    returns or increments [tries], so [maxRetry - tries] rounds are
    enough; [fuel] counts them. *)
Fixpoint retryLoop {C} (fuel : nat) (maxRetry : Z) (interval : Z)
    (exec : Z -> C -> M W (bool * C)) (tries : Z) (c : C)
  : M W (bool * C) :=
  ask (EvTick interval) (fun w => (tt, os_tick os interval w));;
  if tries >=? maxRetry then ret (false, c)
  else
    '(ok, c') ← exec tries c;
    if ok : bool then ret (true, c')
    else
      match fuel with
      | O => ret (false, c')
      | S fuel' => retryLoop fuel' maxRetry interval exec (tries + 1) c'
      end.

Definition RunWithRetry {C} (maxRetry : Z) (interval : Z)
    (exec : Z -> C -> M W (bool * C)) (c : C) : M W (bool * C) :=
  let tries := 1 in
  (* execute instantly *)
  '(ok, c') ← exec tries c;
  if ok : bool then ret (true, c')
  else retryLoop (Z.to_nat maxRetry) maxRetry interval exec tries c'.

Definition CheckValidDevice (device : string) : M W bool :=
  '(_, err) ← Execute "dd" ["if=" +++ device; "of=/dev/null"; "count=1"];
  match err with
  | Some _ =>
      log_printf "failed to access the device on the path %v%v";;
      ret false
  | None => ret true
  end.

End Utils.

(** ** Loops *)

Section Loops.
Context {W : Type}.

(** [for _, x := range l { body }] over loop variables [S]. *)
Fixpoint forRange {A S} (l : list A) (s : S) (body : S -> A -> M W S)
  : M W S :=
  match l with
  | [] => mret s
  | x :: rest => s' ← body s x; forRange rest s' body
  end.

(** The same with a [return] inside the body: [inr r] leaves the loop
    (and the function) with [r], [inl s] goes on to the next element. *)
Fixpoint forRangeRet {A S R} (l : list A) (s : S)
    (body : S -> A -> M W (S + R)) : M W (S + R) :=
  match l with
  | [] => mret (inl s)
  | x :: rest =>
      r ← body s x;
      match r with
      | inl s' => forRangeRet rest s' body
      | inr v => mret (inr v)
      end
  end.

(** [l[i]], which panics out of range. *)
Definition at_index {A} (l : list A) (i : nat) : M W A :=
  match l !! i with
  | Some x => mret x
  | None => panic "runtime error: index out of range"
  end.

End Loops.

(** [m[k]] on a [map[string]string]: the empty string when absent. *)
Definition sindex (m : gmap string string) (k : string) : string :=
  default EmptyString (m !! k).

(** ** [initiator/linuxfc.go] and the echo helper of [linuxscsi.go] *)

Definition FCHostSysFSPath : string := "/sys/class/fc_host".
Definition DeviceScanAttemptsDefault : Z := 3.

Definition MultipathDeviceActions : list string :=
  ["unchanged:"; "reject:"; "reload:"; "switchpg:"; "rename:"; "create:";
   "resize:"].

(** What [process] and [skipped] hold as [ctls] in [RescanHosts]: the
    [[][]string] of a narrow scan or the [[]interface{}] of wildcards. *)
Inductive ctls_dyn : Type :=
| CtlsStrs (l : list (list string))
| CtlsIfaces (l : list (list string)).

(** One record of the [systool] output, line by line. *)
Definition parseHBALine (acc : list HBA * HBA * string) (line0 : string)
  : list HBA * HBA * string :=
  let '(hbas, hba, lastLine) := acc in
  let line := TrimSpace line0 in
  (* 2 newlines denotes a new hba port *)
  if String.eqb line "" && String.eqb lastLine "" then
    if (0 <? size hba)%nat then (hbas ++ [hba], ∅, line)
    else (hbas, hba, line)
  else
    match Split line "="%char with
    | [k; v] =>
        let key := ReplaceAll (TrimSpace k) " " "" in
        let value := TrimSpace v in
        (hbas, <[key := ReplaceAll value dquote EmptyString]> hba, line)
    | _ => (hbas, hba, line)
    end.

Section LinuxFC.
Context {W : Type} (os : OS W).

(** Used to echo strings to scsi subsystem. *)
Definition EchoSCSICommand (path content : string) : M W (option error) :=
  let cmd := "echo '" +++ content +++ "' > " +++ path in
  '(_, err) ← Execute os "sh" ["-c"; cmd];
  mret err.

Definition HasFCSupport : M W bool := IsFileExists os FCHostSysFSPath.

Definition GetFCHBAs : M W (list HBA * option error) :=
  fc ← HasFCSupport;
  if negb fc then mret ([], Some (Errorf "fc not supported"))
  else
    '(out, err) ← Execute os "systool" ["-c"; "fc_host"; "-v"];
    match err with
    | Some e => mret ([], Some e)
    | None =>
        if String.eqb out "" then mret ([], None)
        else
          let all := Split out nl in
          if (length all <? 2)%nat
          then panic "runtime error: slice bounds out of range"
          else
            let lines := skipn 2 all in
            let '(hbas, _, _) :=
              fold_left parseHBALine lines ([], ∅, EmptyString) in
            mret (hbas, None)
    end.

Definition GetFCHBAsInfo : M W (list HBA * option error) :=
  '(hbas, err) ← GetFCHBAs;
  match err with
  | Some e => mret ([], Some e)
  | None =>
      mret (map (fun hba : HBA =>
                   let wwpn := Replace (sindex hba "port_name") "0x" "" 1 in
                   let wwnn := Replace (sindex hba "node_name") "0x" "" 1 in
                   let devicePath := sindex hba "ClassDevicepath" in
                   let device := sindex hba "ClassDevice" in
                   (<["port_name" := wwpn]>
                      (<["node_name" := wwnn]>
                         (<["host_device" := device]>
                            (<["device_path" := devicePath]> ∅)))) : HBA)
                hbas, None)
  end.

(** Get HBA channels, SCSI targets, LUNs to FC targets for given HBA. *)
Definition getHBAChannelSCSITargetLun (hba : HBA)
    (connectionProperties : gmap string value)
  : M W (list (list string) * gmap string bool) :=
  log_printf "getHBAChannelSCSITargetLun: HBA: %#v, connProp: %#v";;
  targets ←
    match index connectionProperties "targets" with
    | VTargets ts => mret ts
    | _ => panic "interface conversion: interface {} is not []initiator.Target"
    end;
  targets ←
    match connectionProperties !! "initiator_target_map",
          connectionProperties !! "initiator_target_lun_map" with
    | Some _, Some (VMapIface lm) =>
        match lm !! sindex hba "port_name" with
        | Some (VTargets k) => mret k
        | Some _ => panic "interface conversion: interface {} is not []initiator.Target"
        | None => mret targets
        end
    | _, _ => mret targets
    end;
  (* Leave only the number from the host_device field (ie: host6) *)
  let hostDevice :=
    match hba !! "host_device" with
    | Some hd => if (4 <? String.length hd)%nat then drop 4 hd else hd
    | None => EmptyString
    end in
  let path := "/sys/class/fc_transport/target" +++ hostDevice +++ ":" in
  forRange targets ([], ∅)
    (fun '(ctls, lunNotFound) t =>
       let wwpn := t_wwpn t in
       let lun := t_lun t in
       let cmd := "grep -Gil " +++ dquote +++ wwpn +++ dquote +++ " " +++ path
                  +++ "*/port_name" in
       '(out, err) ← Execute os "sh" ["-c"; cmd];
       lunNotFound ←
         match err with
         | Some _ =>
             log_printf "could not get HBA channel and SCSI target ID, path: %s, resaon:%v";;
             (* If we didn't find any paths add it to the not found list *)
             mret (<[lun := true]> lunNotFound)
         | None => mret lunNotFound
         end;
       ctls ←
         forRange (Split out nl) ctls
           (fun ctls line =>
              if HasPrefix line path then
                seg ← at_index (Split line "/"%char) 4;
                mret (ctls ++ [skipn 1 (Split seg ":"%char) ++ [lun]])
              else mret ctls);
       mret (ctls, lunNotFound)).

(** The [for _, p := range process] loop of [RescanHosts]. *)
Definition scanProcess (process : list (HBA * ctls_dyn)) : M W unit :=
  forRange process tt
    (fun _ '(hba, ctls) =>
       let cs := match ctls with CtlsStrs l => l | CtlsIfaces l => l end in
       forRange cs tt
         (fun _ c =>
            hbaChannel ← at_index c 0;
            targetId ← at_index c 1;
            targetLun ← at_index c 2;
            log_printf "scanning host:%v, wwnn:%s, c:%v, t:%v, l:%v";;
            err ← EchoSCSICommand
                    ("/sys/class/scsi_host/" +++ sindex hba "host_device" +++ "/scan")
                    (hbaChannel +++ " " +++ targetId +++ " " +++ targetLun);
            match err with
            | Some _ => log_printf "failed scan scsi device: %v"
            | None => mret tt
            end)).

Definition RescanHosts (hbas : list HBA) (connProperties : gmap string value)
  : M W unit :=
  log_printf "rescaning HBAs %v with connection properties %#v";;
  (* Use initiator_target_lun_map as HBA exclusion map: the selection
     [newHBAs] is only logged *)
  match connProperties !! "initiator_target_lun_map" with
  | Some _ => log_printf "using initiator target map to exclude HBAs: %v"
  | None => mret tt
  end;;
  broadScan ←
    match connProperties !! "enable_wildcard_scan" with
    | Some (VBool b) => mret b
    | Some _ => panic "interface conversion: interface {} is not bool"
    | None => mret true
    end;
  forRange hbas ([], [])
    (fun '(process, skipped) hba =>
       '(ctls, lunsWildcards) ← getHBAChannelSCSITargetLun hba connProperties;
       (* If we found the target ports, ignore HBAs that din't find them *)
       '(process, skipped) ←
         (if (0 <? length ctls)%nat then
            mret (process ++ [(hba, CtlsStrs ctls)], skipped)
          else if negb broadScan then
            (* If target ports not found and should have, then the HBA
               is not connected to our storage *)
            log_printf "skipping HBA %s, nothing to scan, target port not connected to initiator";;
            mret (process, skipped)
          else if (length process =? 0)%nat then
            let luns :=
              map (fun k => ["-"; "-"; k]) (map_to_list lunsWildcards).*1 in
            mret (process, skipped ++ [(hba, CtlsIfaces luns)])
          else mret (process, skipped));
       (* If we didn't find any target ports use wildcards if they are enabled *)
       let process := if (length process =? 0)%nat then skipped else process in
       scanProcess process;;
       mret (process, skipped));;
  mret tt.

End LinuxFC.

(** ** Regular expressions of [initiator/linuxfc.go]

    The two patterns are matched against single lines (no newline inside),
    so [.] matches every byte of the line. *)

Definition eat (p : ascii -> bool) (s : string) : option string :=
  match s with
  | String c r => if p c then Some r else None
  | EmptyString => None
  end.

Definition eatc (c : ascii) : string -> option string := eat (chr_eqb c).

Definition noNewline (s : string) : bool :=
  negb (Contains s (String nl EmptyString)).

(** [\w{3} \d+ \d\d:\d\d:\d\d \|.*$] anchored at the start of [s].  [\d+]
    is followed by a space, so taking all the digits is the only way to
    match. *)
Definition errorRegexHere (s : string) : bool :=
  match
    s ← eat isWord s; s ← eat isWord s; s ← eat isWord s;
    s ← eatc " " s;
    s ← eat isDigit s; s ← Some (trimLeftFunc isDigit s);
    s ← eatc " " s;
    s ← eat isDigit s; s ← eat isDigit s; s ← eatc ":" s;
    s ← eat isDigit s; s ← eat isDigit s; s ← eatc ":" s;
    s ← eat isDigit s; s ← eat isDigit s;
    s ← eatc " " s;
    s ← eatc "|" s;
    Some (noNewline s)
  with
  | Some b => b
  | None => false
  end.

(** [regexp.MustCompile(MultipathErrorRegex).MatchString(l)]: a match may
    start anywhere. *)
Fixpoint MultipathErrorRegex_match (l : string) : bool :=
  errorRegexHere l ||
  match l with
  | EmptyString => false
  | String _ r => MultipathErrorRegex_match r
  end.

Fixpoint afterFirst (c : ascii) (s : string) : option string :=
  match s with
  | EmptyString => None
  | String d r => if chr_eqb d c then Some r else afterFirst c r
  end.

Fixpoint beforeLast (c : ascii) (s : string) : option string :=
  match s with
  | EmptyString => None
  | String d r =>
      match beforeLast c r with
      | Some b => Some (String d b)
      | None => if chr_eqb d c then Some EmptyString else None
      end
  end.

(** [FindStringSubmatch] of [MultipathWWIDRegex] (an opening parenthesis,
    the group [wwid] of one or more bytes, a closing one) on a line, the group
    [wwid]: the leftmost match starts at the first parenthesis and the
    greedy [.+] runs to the last closing one. *)
Definition MultipathWWIDRegex_find (line : string) : option string :=
  r ← afterFirst "(" line;
  w ← beforeLast ")" r;
  if String.eqb w "" then None else Some w.

(** [filepath.Split]: the directory keeps its trailing separator. *)
Fixpoint filepath_Split (path : string) : string * string :=
  match path with
  | EmptyString => (EmptyString, EmptyString)
  | String c r =>
      let '(dir, file) := filepath_Split r in
      if String.eqb dir "" then
        if chr_eqb c "/" then (String c EmptyString, r)
        else (EmptyString, String c r)
      else (String c dir, file)
  end.

(** ** [initiator/linuxscsi.go] *)

(** [mDevName, ok := MultipathDeviceActions[...]] *)
Definition isMultipathAction (s : string) : bool :=
  existsb (String.eqb s) MultipathDeviceActions.

(** [newLines] of [FindMultipathDevice]: the lines of the trimmed output
    that are neither empty nor log noise; none when the output is empty. *)
Definition multipathLines (out : string) : list string :=
  if String.eqb out "" then []
  else
    List.filter
      (fun l => negb (String.eqb l "") && negb (MultipathErrorRegex_match l))
      (Split (TrimSpace out) nl).

Section LinuxSCSI.
Context {W : Type} (os : OS W).
(* strconv.ParseFloat(s, 64) on the type F of float64 *)
Context {F : Type} (ParseFloat : string -> F * option error) (zeroF : F).

Definition IsNumeric (s : string) : bool * F :=
  let '(f, err) := ParseFloat s in
  (match err with None => true | Some _ => false end, f).

(** This is used to flush any remaining IO in the buffers. *)
Definition FlushDeviceIO (device : string) : M W (option error) :=
  ex ← IsFileExists os device;
  (if ex : bool then
     RunWithRetry os 3 10
       (fun _ (_ : unit) =>
          '(out, err) ← ExecWithTimeout os 180 "blockdev" ["--flushbufs"; device];
          match err with
          | Some _ =>
              log_printf "failed execute blockdev --flushbufs %s: %s, ERROR: %v";;
              mret (false, tt)
          | None =>
              log_printf "execute blockdev --flushbufs %s: %s";;
              mret (true, tt)
          end) tt;;
     mret tt
   else mret tt);;
  mret None.

(** Removes a scsi device based upon /dev/sdX name. *)
Definition RemoveSCSIDevice (device : string) (flush : bool)
  : M W (option error) :=
  let path := "/sys/block/" +++ Replace device "/dev/" "" 1 +++ "/device/delete" in
  ex ← IsFileExists os path;
  if ex : bool then
    if flush then
      err ← FlushDeviceIO device;
      match err with
      | Some e => mret (Some e)
      | None => EchoSCSICommand os path "1"
      end
    else EchoSCSICommand os path "1"
  else mret None.

(** Read the WWN from page 0x83 value for a SCSI device. *)
Definition GetSCSIWWN (path : string) : M W (string * option error) :=
  '(out, err) ← Execute os "/lib/udev/scsi_id"
                  ["--page"; "0x83"; "--whitelisted"; path];
  mret (TrimSpace out, err).

(** Wait for a path to show up. *)
Definition WaitForPath (path : string) : M W bool :=
  ex ← IsFileExists os path;
  if ex : bool then mret true
  else
    '(ok, _) ← RunWithRetry os 3 1
                 (fun _ (_ : unit) => b ← IsFileExists os path; mret (b, tt)) tt;
    mret ok.

(** Look for the multipath device file for a volume WWN. *)
Definition FindMultipathDevicePath (deviceWwn : string)
  : M W (string * option error) :=
  (* First look for the common path *)
  let path := "/dev/disk/by-id/dm-uuid-mpath-" +++ deviceWwn in
  found ← WaitForPath path;
  if found : bool then mret (path, None)
  else
    (* for some reason the common path wasn't found
       lets try the dev mapper path *)
    let path := "/dev/mapper/" +++ deviceWwn in
    found ← WaitForPath path;
    if found : bool then mret (path, None)
    else mret (EmptyString,
               Some (Errorf "couldn't find a valid multipath device path for %s")).

(** One member line of the [multipath -l] output. *)
Definition parseDeviceLine (l : string) : M W MultipathDevice :=
  let devLine := TrimLeft l " |-`" in
  let devInfo := Split devLine " " in
  d0 ← at_index devInfo 0;
  let address := Split d0 ":" in
  d1 ← at_index devInfo 1;
  a0 ← at_index address 0;
  a1 ← at_index address 1;
  a2 ← at_index address 2;
  a3 ← at_index address 3;
  mret (<["device" := "/dev/" +++ d1]>
          (<["host" := a0]>
             (<["channel" := a1]>
                (<["id" := a2]>
                   (<["lun" := a3]> ∅)))) : MultipathDevice).

(** One round of the [for _, l := range deviceLines] loop. *)
Definition collectDeviceLine (devices : list MultipathDevice) (l : string)
  : M W (list MultipathDevice) :=
  if Contains l "policy" then mret devices
  else dev ← parseDeviceLine l; mret (devices ++ [dev]).

(** Discover multipath devices for a mpath device. *)
Definition FindMultipathDevice (deviceName : string)
  : M W (option (gmap string value) * option error) :=
  '(out, err) ← Execute os "multipath" ["-l"; deviceName];
  match err with
  | Some e => mret (None, Some e)
  | None =>
      let newLines := multipathLines out in
      match newLines with
      | [] => mret (None, None)
      | line0 :: _ =>
          let ns := Split line0 " " in
          mDevName ← at_index ns 0;
          mDevName ←
            (if isMultipathAction mDevName then at_index ns 1
             else mret mDevName);
          let mDev := "/dev/mapper/" +++ mDevName in
          (* Confirm that the device is present. *)
          present ← IsFileExists os mDev;
          if negb present
          then mret (None, Some (Errorf "couldn't find multipath device %s"))
          else
            let mDevID :=
              match MultipathWWIDRegex_find line0 with
              | Some wwid => wwid
              | None => mDevName
              end in
            if (length newLines <? 3)%nat
            then panic "runtime error: slice bounds out of range"
            else
              let deviceLines := skipn 3 newLines in
              devices ← forRange deviceLines [] collectDeviceLine;
              mret (Some (<["device" := VString mDev]>
                            (<["id" := VString mDevID]>
                               (<["name" := VString mDevName]>
                                  (<["devices" := VMultipathDevices devices]> ∅)))),
                    None)
      end
  end.

(** One round of the [for _, l := range blkdevs] loop of [WaitForRW]:
    [inr err] is [return err]. *)
Definition checkBlkdevRow (deviceWwn : string) (_ : unit) (l : string)
  : M W (unit + option error) :=
  let blkdevParts := Split l " " in
  ro ← at_index blkdevParts (length blkdevParts - 1);
  name ← at_index blkdevParts 0;
  (* We must validate that all pieces of the dm-# device are rw,
     if some are still ro it can cause problems. *)
  match Atoi ro with
  | inr e => mret (inr (Some e))
  | inl roi =>
      if Contains name deviceWwn && (roi =? 1) then
        log_printf "block device %s is read-only";;
        '(_, err) ← Execute os "multipath" ["-r"];
        mret (inr err)
      else mret (inl tt)
  end.

(** Wait for block device to be Read-Write. *)
Definition WaitForRW (deviceWwn devicePath : string) : M W (option error) :=
  log_printf "checking to see if %s is read-only";;
  '(out, err) ← Execute os "lsblk" ["-o"; "NAME,RO"; "-l"; "-n"];
  match err with
  | Some e => mret (Some e)
  | None =>
      let blkdevs := Split out nl in
      r ← forRangeRet blkdevs tt (checkBlkdevRow deviceWwn);
      match r with
      | inr err => mret err
      | inl _ =>
          log_printf "Block device %s is not read-only.";;
          mret None
      end
  end.

(** Translates /dev/disk/by-path/ entry to /dev/sdX. *)
Definition GetNameFromPath (path : string) : M W string :=
  '(name, err) ← ask (EvEvalSymlinks path) (os_eval_symlinks os path);
  match err with
  | Some _ =>
      log_printf "failed get realpath for path: %s, ERROR: %v";;
      mret EmptyString
  | None =>
      if HasPrefix name "/dev/" then mret name else mret EmptyString
  end.

Definition FlushMultipathDevice (wwn : string) : M W unit :=
  log_printf "flush multipath device %s";;
  RunWithRetry os 3 10
    (fun _ (_ : unit) =>
       '(out, err) ← ExecWithTimeout os 180 "multipath" ["-f"; wwn];
       log_printf "exec multipath -f %s: %s";;
       mret (match err with None => true | Some _ => false end, tt)) tt;;
  mret tt.

Definition GetDeviceInfo (device : string)
  : M W (option (gmap string string) * option error) :=
  '(out, err) ← Execute os "sg_scan" [device];
  log_printf "exec sg_scan %s: %s";;
  match err with
  | Some e => mret (None, Some (Wrapf "failed execute sg_scan %s: %v" e))
  | None =>
      let deviceInfo : gmap string string :=
        <["device" := device]>
          (<["host" := ""]> (<["channel" := ""]> (<["id" := ""]> (<["lun" := ""]> ∅)))) in
      if String.eqb out "" then mret (Some deviceInfo, None)
      else
        let line := TrimSpace out in
        let line := ReplaceAll line (device +++ ": ") "" in
        let info := Split line " " in
        deviceInfo ←
          forRange info deviceInfo
            (fun (deviceInfo : gmap string string) item =>
               if Contains item "=" then
                 let pair := Split item "=" in
                 k ← at_index pair 0;
                 v ← at_index pair 1;
                 mret (<[k := v]> deviceInfo)
               else if Contains item "scsi" then
                 mret (<["host" := ReplaceAll item "scsi" ""]> deviceInfo)
               else mret deviceInfo);
        mret (Some deviceInfo, None)
  end.

(** Determine what path was used by Nova/Cinder to access volume.  Both
    maps may be nil ([None]). *)
Definition GetDevPath (connProperties : option (gmap string value))
    (deviceInfo : option (gmap string string)) : string :=
  match deviceInfo ≫= (fun di => di !! "path") with
  | Some path => path
  | None =>
      match connProperties ≫= (fun cp => cp !! "device_path") with
      | Some (VString path) => path
      | _ => EmptyString
      end
  end.

(** Check if a device needs to be flushed when detaching. *)
Definition RequiresFlush (devicePath pathUsed : string) (wasMultipath : bool)
  : M W (bool * option error) :=
  (* No used path happens on failed attachs, when we don't care about
     individual flushes.  When Nova used a multipath we don't need to do
     individual flushes. *)
  if String.eqb pathUsed "" || wasMultipath then mret (false, None)
  else
    '(rPath, err) ← ask (EvEvalSymlinks devicePath) (os_eval_symlinks os devicePath);
    match err with
    | Some e => mret (false, Some (Wrapf "failed get realpath for path:%s: %v" e))
    | None =>
        '(rPathUsed, err) ← ask (EvEvalSymlinks pathUsed) (os_eval_symlinks os pathUsed);
        match err with
        | Some e => mret (false, Some (Wrapf "failed get realpath for path:%s: %v" e))
        | None =>
            let '(dir, _) := filepath_Split rPathUsed in
            mret (String.eqb rPathUsed rPath || negb (String.eqb dir "/dev"), None)
        end
    end.

End LinuxSCSI.

Section ExtendSCSI.
Context {W : Type} (os : OS W).
Context {F : Type} (ParseFloat : string -> F * option error) (zeroF : F).

(** Issue a multipath resize map on device. *)
Definition MultipathResizeMap (wwn : string) : M W (string * option error) :=
  Execute os "multipathd" ["resize"; "map"; wwn].

(** Get the size in bytes of a volume *)
Definition GetDeviceSize (path : string) : M W (F * option error) :=
  '(out, err) ← Execute os "blockdev" ["--getsize64"; path];
  match err with
  | Some e => mret (zeroF, Some (Wrapf "failed execute blockdev --getsize64 %s: %v" e))
  | None =>
      let s := TrimSpace out in
      let '(b, f) := IsNumeric ParseFloat s in
      if b : bool then mret (f, None)
      else mret (zeroF, Some (Errorf "device size not numeric: %s"))
  end.

(** Issue a multipathd reconfigure. *)
Definition MultipathReConfigure : M W (option error) :=
  '(out, err) ← Execute os "multipathd" ["reconfigure"];
  log_printf "execute multipathd reconfigure: %s";;
  mret err.

(** Signal the SCSI subsystem to test for volume resize. *)
Definition DoExtendVolume (volumePaths : list string) (useMultipath : bool)
  : M W (F * option error) :=
  log_printf "extending volume %v";;
  newSize ←
    forRange volumePaths zeroF
      (fun newSize volumePath =>
         '(device, err) ← GetDeviceInfo os volumePath;
         match err with
         | Some _ =>
             log_printf "failed get device info for path: %s, ERROR: %v";;
             mret newSize
         | None =>
             log_printf "volume device info: %#v";;
             let device := default ∅ device in
             let deviceId := sindex device "host" +++ ":" +++ sindex device "channel"
                             +++ ":" +++ sindex device "id" +++ ":" +++ sindex device "lun" in
             let scsiPath := "/sys/bus/scsi/drivers/sd/" +++ deviceId in
             '(size, err) ← GetDeviceSize volumePath;
             match err with
             | Some _ =>
                 log_printf "failed get device size for path: %s, ERROR: %v";;
                 mret newSize
             | None =>
                 log_printf "starting size: %f";;
                 (* now issue the device rescan *)
                 err ← EchoSCSICommand os (scsiPath +++ "/rescan") "1";
                 match err with
                 | Some _ => log_printf "failed echo '1' > %s, ERROR: %s"
                 | None => mret tt
                 end;;
                 '(newSize, err) ← GetDeviceSize volumePath;
                 match err with
                 | Some _ =>
                     log_printf "failed get device size for path: %s, ERROR: %s";;
                     mret newSize
                 | None =>
                     log_printf "volume size after scsi device rescan %f";;
                     mret newSize
                 end
             end
         end);
  path0 ← at_index volumePaths 0;
  '(scsiWWN, err) ← GetSCSIWWN os path0;
  match err with
  | Some _ => mret (zeroF, Some (Errorf "failed get scsi wwn for path: %s"))
  | None =>
      if useMultipath : bool then
        '(mPathDevice, err) ← FindMultipathDevicePath os scsiWWN;
        match err with
        | Some e => mret (zeroF, Some (Wrapf "failed find multipath device path for wwn %s : %v" e))
        | None =>
            if negb (String.eqb mPathDevice "") then
              (* Force a reconfigure so that resize works *)
              err ← MultipathReConfigure;
              match err with
              | Some e => mret (zeroF, Some (Wrapf "failed reconfigure multipath: %v" e))
              | None =>
                  '(size, err) ← GetDeviceSize mPathDevice;
                  match err with
                  | Some _ => mret (zeroF, Some (Errorf "failed get device size for path %s after reconfigure: "))
                  | None =>
                      log_printf "mpath %s current size: %f";;
                      '(result, err) ← MultipathResizeMap scsiWWN;
                      match err with
                      | Some e => mret (zeroF, Some (Wrapf "failed multipath resize map: %v" e))
                      | None =>
                          if Contains result "fail" then
                            mret (zeroF, Some (Errorf "multipathd failed to update the size mapping of multipath device %s volume %v"))
                          else
                            '(newSize, err) ← GetDeviceSize mPathDevice;
                            match err with
                            | Some _ => mret (zeroF, Some (Errorf "failed get device size for path %s after resize map: "))
                            | None => mret (newSize, None)
                            end
                      end
                  end
              end
            else mret (newSize, None)
        end
      else mret (newSize, None)
  end.

End ExtendSCSI.

(** ** [initiator/connectors/fibre_channel.go]: the property normalizer *)

(** The caller's map after the call (it is updated in place), the map
    returned ([None] is Go's nil map) and the error. *)
Record Normalized : Type := mkNormalized {
  n_arg : gmap string value;
  n_ret : option (gmap string value);
  n_err : option error
}.

(** The [wwns] of a descriptor as the caller wrote them; [None] is the
    panic of the failed type assertion [targetWwns.([]string)]. *)
Definition rawWwns (connectionProperties : gmap string value)
  : option (list string) :=
  let targetWwn := index connectionProperties "target_wwn" in
  let targetWwns := index connectionProperties "target_wwns" in
  match targetWwns with
  | VNil =>
      match targetWwn with
      | VStrings l => Some l
      | VString s => Some [s]
      | _ => Some []
      end
  | VStrings l => Some l
  | _ => None
  end.

(** Convert wwns to lower case *)
Definition descriptorWwns (connectionProperties : gmap string value)
  : option (list string) :=
  map ToLower <$> rawWwns connectionProperties.

(** The [luns] the normalizer works on; [None] is the panic of
    [targetLuns.([]string)]. *)
Definition descriptorLuns (connectionProperties : gmap string value)
  : option (list string) :=
  let targetLun := index connectionProperties "target_lun" in
  let targetLuns := index connectionProperties "target_luns" in
  match targetLuns with
  | VNil =>
      match targetLun with
      | VString s => Some [s]
      | _ => Some []
      end
  | VStrings l => Some l
  | _ => None
  end.

(** [lowItMap]: keys and ports lower-cased, the ports of keys that fall
    together appended in the order of the iteration (Go leaves that order
    open; the model takes the order of [map_to_list]). *)
Definition lowerItMap (itMap : gmap string (list string))
  : gmap string (list string) :=
  fold_left
    (fun (lowItMap : gmap string (list string)) '(k, v) =>
       fold_left
         (fun (lowItMap : gmap string (list string)) port =>
            <[ToLower k := default [] (lowItMap !! ToLower k) ++ [ToLower port]]> lowItMap)
         v lowItMap)
    (map_to_list itMap) ∅.

(** [for i, w := range wwns { targets = append(targets, Target{w, luns[i]}) }] *)
Fixpoint zipTargetsFrom (luns : list string) (i : nat) (ws : list string)
    (acc : list Target) : outcome (list Target) :=
  match ws with
  | [] => Ret acc
  | w :: ws' =>
      match luns !! i with
      | Some l => zipTargetsFrom luns (S i) ws' (acc ++ [mkTarget w l])
      | None => Panic "runtime error: index out of range"
      end
  end.

Definition zipTargets (wwns luns : list string) : outcome (list Target) :=
  zipTargetsFrom luns O wwns [].

(** The lower-cased WWNs are written back under the key they came from. *)
Definition storeWwns (connectionProperties : gmap string value)
    (wwns : list string) : gmap string value :=
  match index connectionProperties "target_wwns",
        index connectionProperties "target_wwn" with
  | VNil, VNil => connectionProperties
  | VNil, _ => <["target_wwn" := VStrings wwns]> connectionProperties
  | _, _ => <["target_wwns" := VStrings wwns]> connectionProperties
  end.

(** The three-way branch on the cardinalities; [Ret None] is the branch
    that returns the error. *)
Definition pairTargets (wwns luns : list string) : outcome (option (list Target)) :=
  if (length luns =? length wwns)%nat && (0 <? length luns)%nat then
    (* Handles single wwwn + lun or multiple, potentially different wwns
       or luns *)
    match zipTargets wwns luns with
    | Ret ts => Ret (Some ts)
    | Panic msg => Panic msg
    end
  else if (length luns =? 1)%nat && (1 <? length wwns)%nat then
    (* For the case of multiple wwns, but a single lun (old path) *)
    match luns !! 0%nat with
    | Some l0 => Ret (Some (map (fun w => mkTarget w l0) wwns))
    | None => Panic "runtime error: index out of range"
    end
  else Ret None.

(** If there is an initiator_target_map we can update it too *)
Definition updateItMap (connectionProperties : gmap string value)
    (targets : list Target) : gmap string value :=
  let wwpnLunMap : gmap string string :=
    fold_left (fun (m : gmap string string) t => <[t_wwpn t := t_lun t]> m)
              targets ∅ in
  match connectionProperties !! "initiator_target_map" with
  | Some (VMapStrings itMap) =>
      let lowItMap := lowerItMap itMap in
      let newItMap : gmap string (list string) :=
        (fun targetWwpns : list string =>
           omap (fun t => wwpnLunMap !! t) targetWwpns)
          <$> lowItMap in
      <["initiator_target_lun_map" := VMapStrings newItMap]>
        (<["initiator_target_map" := VMapStrings lowItMap]>
           connectionProperties)
  | _ => connectionProperties
  end.

Definition addTargetsToConnectionProperties
    (connectionProperties : gmap string value) : outcome Normalized :=
  match descriptorWwns connectionProperties with
  | None => Panic "interface conversion: interface {} is not []string"
  | Some wwns =>
      let connectionProperties := storeWwns connectionProperties wwns in
      match descriptorLuns connectionProperties with
      | None => Panic "interface conversion: interface {} is not []string"
      | Some luns =>
          match pairTargets wwns luns with
          | Panic msg => Panic msg
          | Ret None =>
              (* Something is wrong, this shouldn't happen. *)
              Ret (mkNormalized connectionProperties None
                     (Some (Errorf "unable to find potential volume paths for FC device with luns %#v and wwns %#v")))
          | Ret (Some targets) =>
              let connectionProperties :=
                <["targets" := VTargets targets]> connectionProperties in
              let connectionProperties := updateItMap connectionProperties targets in
              Ret (mkNormalized connectionProperties (Some connectionProperties) None)
          end
      end
  end.

(** ** [initiator/connectors/fibre_channel.go]: candidate paths *)

Definition isLowerAlnum (c : ascii) : bool :=
  let n := nat_of_ascii c in
  isDigit c || ((97 <=? n) && (n <=? 122))%nat.

Fixpoint eatN (p : ascii -> bool) (n : nat) (s : string) : option string :=
  match n with
  | O => Some s
  | S n' => s' ← eat p s; eatN p n' s'
  end.

Fixpoint eatStr (lit : string) (s : string) : option string :=
  match lit with
  | EmptyString => Some s
  | String c lit' => s' ← eatc c s; eatStr lit' s'
  end.

(** [pci-[a-z0-9]{4}:[a-z0-9]{2}:[a-z0-9]{2}.[a-z0-9]+-fc-0x[a-z0-9]{16}-lun-[a-z0-9]+]
    anchored at the start of [s]; the [+] runs are followed by a byte
    outside their class, so they take all of it. *)
Definition hostPathRegexHere (s : string) : bool :=
  match
    s ← eatStr "pci-" s;
    s ← eatN isLowerAlnum 4 s; s ← eatc ":" s;
    s ← eatN isLowerAlnum 2 s; s ← eatc ":" s;
    s ← eatN isLowerAlnum 2 s;
    s ← eat (fun c => negb (chr_eqb c nl)) s;
    s ← eat isLowerAlnum s; s ← Some (trimLeftFunc isLowerAlnum s);
    s ← eatStr "-fc-0x" s;
    s ← eatN isLowerAlnum 16 s;
    s ← eatStr "-lun-" s;
    eat isLowerAlnum s
  with
  | Some _ => true
  | None => false
  end.

(** The greedy leading group of the pattern within one line: everything
    before the last place where the rest of the pattern matches. *)
Fixpoint hostPathPrefixOfLine (s : string) : option string :=
  match s with
  | EmptyString => None
  | String c r =>
      match hostPathPrefixOfLine r with
      | Some p => Some (String c p)
      | None => if hostPathRegexHere s then Some EmptyString else None
      end
  end.

(** [reg.FindStringSubmatch(p)], the first group: [.] does not cross a
    newline, so the leftmost match lies in the first line that has one. *)
Definition hostPathRegex_find (p : string) : option string :=
  list_find (fun o : option string => is_Some o)
            (map hostPathPrefixOfLine (Split p nl))
    ≫= fun '(_, o) => o.

Section Candidates.
Context {W : Type} (os : OS W).

(** We always want the value prior to the host or net value.  The index
    [i-1] is out of range when the first segment already matches. *)
Definition getPCINum (hba : HBA) : M W string :=
  match hba !! "device_path" with
  | Some devicePath =>
      let devicePaths := Split devicePath "/" in
      match list_find (fun v => HasPrefix v "net" || HasPrefix v "host") devicePaths with
      | Some (O, _) => panic "runtime error: index out of range [-1]"
      | Some (S i, _) => at_index devicePaths i
      | None => mret EmptyString
      end
  | None => mret EmptyString
  end.

(** Compute the possible fibre channel device options. *)
Definition getPossibleDevices (hbas : list HBA) (targets : list Target)
  : M W (list Device) :=
  forRange hbas []
    (fun rawDevices hba =>
       pciNum ← getPCINum hba;
       if negb (String.eqb pciNum "") then
         mret (rawDevices ++
               map (fun t => mkDevice pciNum ("0x" +++ ToLower (t_wwpn t)) (t_lun t))
                   targets)
       else mret rawDevices).

(** Where do we look for FC based volumes *)
Definition getPossibleHostPathPrefix : M W (string * option error) :=
  let searchPath := "/dev/disk/by-path" in
  r ← ask (EvReaddirnames searchPath) (os_readdirnames os searchPath);
  match r with
  | inl e => mret (EmptyString, Some (Wrapf "failed read dir %s: %v" e))
  | inr (inl e) => mret (EmptyString, Some (Wrapf "failed read dirnames for dir %s: %v" e))
  | inr (inr paths) =>
      r ← forRangeRet paths tt
            (fun _ p =>
               log_printf "possible host path and prefix: %#v";;
               match hostPathRegex_find p with
               | Some prefix => mret (inr prefix)
               | None => mret (inl tt)
               end);
      match r with
      | inr prefix => mret (prefix, None)
      | inl _ => mret (EmptyString, Some (Errorf "no matched path found under search path:%s"))
      end
  end.

(** [%v] of a normalized LUN *)
Definition fmt_v (x : value) : string :=
  match x with
  | VInt n => fmt_d n
  | VString s => s
  | _ => EmptyString
  end.

Definition hostDevicePath (prefix : string) (d : Device) (lunID : value) : string :=
  "/dev/disk/by-path/" +++ prefix +++ "pci-" +++ d_pci d +++ "-fc-" +++ d_wwn d
    +++ "-lun-" +++ fmt_v lunID.

(** Compute the device paths on the system with an id, wwn, and lun *)
Definition getHostDevices (possibleDevs : list Device)
  : M W (list string * option error) :=
  r ← forRangeRet possibleDevs (EmptyString, [])
        (fun '(prefix, hostDevices) d =>
           match ProcessLunID (VString (d_lun d)) with
           | inr err => mret (inr err)
           | inl lunID =>
               let hostDevice := hostDevicePath prefix d lunID in
               '(rp, err) ← ask (EvEvalSymlinks hostDevice) (os_eval_symlinks os hostDevice);
               missing ←
                 match err with
                 | Some _ => mret true
                 | None => ex ← IsFileExists os rp; mret (negb ex)
                 end;
               if missing : bool then
                 log_printf "host device %s with default prefix is not exists, we'll try to find it out";;
                 '(prefix, err) ← getPossibleHostPathPrefix;
                 match err with
                 | Some _ =>
                     log_printf "cannot found possible host device for %v under path /dev/disk/by-path/, ERROR: %v";;
                     mret (inl (prefix, hostDevices))
                 | None =>
                     let hostDevice := hostDevicePath prefix d lunID in
                     mret (inl (prefix, hostDevices ++ [hostDevice]))
                 end
               else mret (inl (prefix, hostDevices ++ [hostDevice]))
           end);
  match r with
  | inr err => mret ([], Some err)
  | inl (_, hostDevices) => mret (hostDevices, None)
  end.

Definition getPossibleVolumePaths (targets : list Target) (hbas : list HBA)
  : M W (list string * option error) :=
  possibleDevs ← getPossibleDevices hbas targets;
  '(hostPaths, err) ← getHostDevices possibleDevs;
  match err with
  | Some e => mret ([], Some e)
  | None => mret (hostPaths, None)
  end.

Definition GetVolumePaths (targets : list Target)
  : M W (list string * option error) :=
  (* first fetch all of the potential paths that might exist; how the
     FC fabric is zoned may alter the actual list that shows up on the
     system.  So, we verify each path. *)
  '(hbas, err) ← GetFCHBAsInfo os;
  match err with
  | Some e => mret ([], Some (Wrapf "failed get fc HBAs info: %v" e))
  | None =>
      '(devicePaths, err) ← getPossibleVolumePaths targets hbas;
      match err with
      | Some e => mret ([], Some (Wrapf "failed get possible volume paths: %v" e))
      | None =>
          volumePaths ←
            forRange devicePaths []
              (fun volumePaths path =>
                 ex ← IsFileExists os path;
                 if ex : bool then mret (volumePaths ++ [path]) else mret volumePaths);
          mret (volumePaths, None)
      end
  end.

(** There may have been more than 1 device mounted by the kernel for
    this volume.  We have to remove all of them *)
Definition removeDevices (connProperties : option (gmap string value))
    (devices : list (gmap string string)) (deviceInfo : option (gmap string string))
  : M W (option error) :=
  let pathUsed := GetDevPath connProperties deviceInfo in
  let wasMultipath := negb (Contains pathUsed "/pci-") in
  r ← forRangeRet devices tt
        (fun _ device =>
           let devicePath := sindex device "device" in
           '(flush, err) ← RequiresFlush os devicePath pathUsed wasMultipath;
           match err with
           | Some _ =>
               mret (inr (Errorf "failed requires flush: devicePath:%s, pathUsed:%s, wasMultipath:%t"))
           | None =>
               err ← RemoveSCSIDevice os devicePath flush;
               match err with
               | Some _ => mret (inr (Errorf "failed remove scsi device: devicePath:%s, flush:%t"))
               | None => mret (inl tt)
               end
           end);
  match r with
  | inr e => mret (Some e)
  | inl _ => mret None
  end.

End Candidates.

(** ** [initiator/connectors/base.go] and the three entry points *)

(** [um, ok := connectionProperties["use_multipath"]] with the [bool]
    assertion; a nil map has no keys. *)
Definition useMultipathOf (connectionProperties : gmap string value) : bool :=
  match connectionProperties !! "use_multipath" with
  | Some (VBool umb) => umb
  | _ => true
  end.

(** [am, ok := connProperties["access_mode"]; ok && am != "ro"]: an
    interface differs from the string unless it holds that string. *)
Definition accessModeNotRO (connProperties : gmap string value) : bool :=
  match connProperties !! "access_mode" with
  | Some (VString am) => negb (String.eqb am "ro")
  | Some _ => true
  | None => false
  end.

(** [connProperties["targets"].([]initiator.Target)], on a possibly nil map. *)
Definition targetsOf {W} (connProperties : option (gmap string value))
  : M W (list Target) :=
  match index (default ∅ connProperties) "targets" with
  | VTargets ts => mret ts
  | _ => panic "interface conversion: interface {} is nil, not []initiator.Target"
  end.

Section Connector.
Context {W : Type} (os : OS W).
Context {F : Type} (ParseFloat : string -> F * option error) (zeroF : F).

(** The closure [discoverMPathDevice] hands to [RunWithRetry]. *)
Definition waitRWAttempt (deviceWwn devicePath : string) (_ : Z) (_ : unit)
  : M W (bool * unit) :=
  err ← WaitForRW os deviceWwn devicePath;
  mret (match err with None => true | Some _ => false end, tt).

(** This method discovers a multipath device. *)
Definition discoverMPathDevice (deviceWwn : string)
    (connProperties : gmap string value) (deviceName : string)
  : M W (string * string * option error) :=
  '(path, err) ← FindMultipathDevicePath os deviceWwn;
  match err with
  | Some e => mret (EmptyString, EmptyString, Some e)
  | None =>
      r ←
        (if String.eqb path "" then
           (* find_multipath_device only accept realpath not symbolic path *)
           '(deviceRealPath, err) ←
             ask (EvEvalSymlinks deviceName) (os_eval_symlinks os deviceName);
           match err with
           | Some e => mret (inr e)
           | None =>
               '(mPathInfo, err) ← FindMultipathDevice os deviceRealPath;
               match mPathInfo, err with
               | Some info, None =>
                   match index info "device" with
                   | VString devicePath => mret (inl (devicePath, deviceWwn))
                   | _ => panic "interface conversion: interface {} is not string"
                   end
               | _, _ =>
                   (* we didn't find a multipath device.
                      so we assume the kernel only sees 1 device *)
                   mret (inl (deviceName, EmptyString))
               end
           end
         else mret (inl (path, deviceWwn)));
      match r with
      | inr e => mret (EmptyString, EmptyString, Some e)
      | inl (devicePath, multipathID) =>
          (if accessModeNotRO connProperties then
             (* Sometimes the multipath devices will show up as read only
                initially and need additional time/rescans to get to RW. *)
             '(success, _) ←
               RunWithRetry os 5 1 (waitRWAttempt deviceWwn devicePath) tt;
             if negb success
             then log_printf "block device %s is still read-only. Continuing anyway."
             else mret tt
           else mret tt);;
          mret (devicePath, multipathID, None)
      end
  end.

(** The [for _, dev := range hostDevices] loop of the closure
    [ConnectVolume] hands to [RunWithRetry]: the first candidate that
    exists and passes the raw read, with its real name. *)
Definition scanHostDevices (hostDevices : list string)
  : M W (unit + (string * string)) :=
  forRangeRet hostDevices tt
    (fun _ dev =>
       ex ← IsFileExists os dev;
       valid ← (if ex : bool then CheckValidDevice os dev else mret false);
       if valid : bool then
         (* get the /dev/sdX device. This is used to find the multipath device. *)
         '(deviceName, _) ← ask (EvEvalSymlinks dev) (os_eval_symlinks os dev);
         mret (inr (dev, deviceName))
       else mret (inl tt)).

(** The closure itself; it assigns [hostDevice] and [deviceName]. *)
Definition pollHostDevices (hbas : list HBA) (connProperties : gmap string value)
    (hostDevices : list string) (_ : Z) (captured : string * string)
  : M W (bool * (string * string)) :=
  r ← scanHostDevices hostDevices;
  match r with
  | inr found => mret (true, found)
  | inl _ =>
      RescanHosts os hbas connProperties;;
      mret (false, captured)
  end.

(** Connect to a volume. *)
Definition ConnectVolume (connectionProperties : gmap string value)
  : M W (option (gmap string string) * option error) :=
  let deviceInfo : gmap string string := {["type" := "block"]} in
  match addTargetsToConnectionProperties connectionProperties with
  | Panic msg => panic msg
  | Ret (mkNormalized _ _ (Some err)) => mret (None, Some err)
  | Ret (mkNormalized _ connPropertiesRet None) =>
      (* reading a nil map is reading an empty one *)
      let connProperties := default ∅ connPropertiesRet in
      log_printf "add Targets To connProps: %#v";;
      '(hbas, err) ← GetFCHBAsInfo os;
      log_printf "FC HBAs Info: %#v";;
      match err with
      | Some e => mret (None, Some e)
      | None =>
          if (length hbas =? 0)%nat
          then mret (None, Some (Errorf "we are unable to locate any Fibre Channel devices"))
          else
            targets ← targetsOf connPropertiesRet;
            '(hostDevices, err) ← getPossibleVolumePaths os targets hbas;
            match err with
            | Some e => mret (None, Some e)
            | None =>
                log_printf "possibleVolumePaths: %#v";;
                '(found, (hostDevice, deviceName)) ←
                  RunWithRetry os DeviceScanAttemptsDefault 5
                    (pollHostDevices hbas connProperties hostDevices)
                    (EmptyString, EmptyString);
                if negb found
                then mret (None, Some (Errorf "fibre Channel volume device not found"))
                else
                  (* find out the WWN of the device *)
                  '(deviceWwn, err) ← GetSCSIWWN os hostDevice;
                  match err with
                  | Some e => mret (None, Some e)
                  | None =>
                      let deviceInfo := <["scsi_wwn" := deviceWwn]> deviceInfo in
                      (* see if the new drive is part of a multipath device.
                         If so, we'll use the multipath device. *)
                      if useMultipathOf connProperties then
                        '(devicePath, multipathId, err) ←
                          discoverMPathDevice deviceWwn connProperties deviceName;
                        match err with
                        | Some e => mret (None, Some e)
                        | None =>
                            let deviceInfo :=
                              if negb (String.eqb multipathId "")
                              then <["multipath_id" := multipathId]> deviceInfo
                              else deviceInfo in
                            mret (Some (<["path" := devicePath]> deviceInfo), None)
                        end
                      else
                        mret (Some (<["path" := hostDevice]> deviceInfo), None)
                  end
            end
      end
  end.

(** One round of the [for _, path := range volumePaths] loop of
    [DisconnectVolume], over [mPathPath] and [devices]. *)
Definition disconnectPath (useMultipath : bool)
    (vars : string * list (gmap string string)) (path : string)
  : M W (string * list (gmap string string)) :=
  let '(mPathPath, devices) := vars in
  realPath ← GetNameFromPath os path;
  enter ←
    (if useMultipath && negb (String.eqb mPathPath "")
     then CheckValidDevice os path else mret false);
  r ←
    (if enter : bool then
       '(wwn, err) ← GetSCSIWWN os path;
       match err with
       | Some _ =>
           log_printf "failed get scsi wwn for path %s, ERROR:%v";;
           mret (inr mPathPath)
       | None =>
           '(mPathPath, err) ← FindMultipathDevicePath os wwn;
           match err with
           | Some _ =>
               log_printf "failed find multipath device path for wwn: %s, ERROR:%v";;
               mret (inr mPathPath)
           | None =>
               (if negb (String.eqb mPathPath "")
                then FlushMultipathDevice os mPathPath else mret tt);;
               mret (inl mPathPath)
           end
       end
     else mret (inl mPathPath));
  match r with
  | inr mPathPath => mret (mPathPath, devices)        (* continue *)
  | inl mPathPath =>
      '(deviceInfo, err) ← GetDeviceInfo os realPath;
      match err with
      | Some _ =>
          log_printf "failed get device info for path: %s, ERROR:%v";;
          mret (mPathPath, devices)
      | None => mret (mPathPath, devices ++ [default ∅ deviceInfo])
      end
  end.

(** Detach the volume from instance_name. *)
Definition DisconnectVolume (connectionProperties : gmap string value)
    (deviceInfo : option (gmap string string)) : M W (option error) :=
  let useMultipath := useMultipathOf connectionProperties in
  match addTargetsToConnectionProperties connectionProperties with
  | Panic msg => panic msg
  | Ret (mkNormalized _ connProperties err) =>
      match err with
      | Some _ => log_printf "failed addTargetsToConnectionProperties: %#v, ERROR:%v"
      | None => mret tt
      end;;
      targets ← targetsOf connProperties;
      '(volumePaths, err) ← GetVolumePaths os targets;
      match err with
      | Some e => mret (Some (Wrapf "failed get volume paths: %v" e))
      | None =>
          log_printf "get volume paths: %#v";;
          '(_, devices) ←
            forRange volumePaths (EmptyString, []) (disconnectPath useMultipath);
          if (length devices =? 0)%nat
          then mret (Some (Errorf "no device to remove"))
          else
            log_printf "devices to remove = %#v";;
            err ← removeDevices os connProperties devices deviceInfo;
            match err with
            | Some e => mret (Some (Wrapf "failed remove devices %#v: %v" e))
            | None =>
                log_printf "devices removed successfully";;
                mret None
            end
      end
  end.

(** Update the local kernel's size information. *)
Definition ExtendVolume (connectionProperties : gmap string value)
  : M W (option error) :=
  let useMultipath := useMultipathOf connectionProperties in
  match addTargetsToConnectionProperties connectionProperties with
  | Panic msg => panic msg
  | Ret (mkNormalized _ connProperties err) =>
      match err with
      | Some e => mret (Some (Wrapf "failed add targets to connection properties:%v" e))
      | None =>
          targets ← targetsOf connProperties;
          '(volumePaths, err) ← GetVolumePaths os targets;
          match err with
          | Some e => mret (Some (Wrapf "failed get volume paths: %v" e))
          | None =>
              if (length volumePaths =? 0)%nat
              then mret (Some (Errorf "couldn't find any volume paths on the host to extend volume for %#v"))
              else
                '(newSize, err) ← DoExtendVolume os ParseFloat zeroF volumePaths useMultipath;
                match err with
                | Some e => mret (Some e)
                | None =>
                    log_printf "volume extended to new size: ";;
                    mret None
                end
          end
      end
  end.

End Connector.

(** *** The shape of a [multipath -l] block *)

Fixpoint noChar (c : ascii) (s : string) : bool :=
  match s with
  | EmptyString => true
  | String d r => negb (chr_eqb d c) && noChar c r
  end.

Definition treeChars : string := " |-`".

(** A member leg as [multipath -l] prints it: tree drawing, the address
    [host:channel:id:lun], the leaf device and the rest of the line. *)
Record Leg : Type := mkLeg {
  leg_indent : string;
  leg_host : string;
  leg_channel : string;
  leg_id : string;
  leg_lun : string;
  leg_dev : string;
  leg_rest : string
}.

Definition legAddress (g : Leg) : string :=
  leg_host g +++ ":" +++ leg_channel g +++ ":" +++ leg_id g +++ ":" +++ leg_lun g.

Definition legLine (g : Leg) : string :=
  leg_indent g +++ legAddress g +++ " " +++ leg_dev g +++ " " +++ leg_rest g.

Definition wfLeg (g : Leg) : bool :=
  String.eqb (TrimLeft (leg_indent g) treeChars) EmptyString
  && match leg_host g with
     | String c _ => negb (inCutset c treeChars)
     | EmptyString => false
     end
  && noChar ":" (leg_host g) && noChar " " (leg_host g)
  && noChar ":" (leg_channel g) && noChar " " (leg_channel g)
  && noChar ":" (leg_id g) && noChar " " (leg_id g)
  && noChar ":" (leg_lun g) && noChar " " (leg_lun g)
  && noChar " " (leg_dev g)
  && negb (Contains (legLine g) "policy").

(** The record the parser builds for a leg. *)
Definition legDevice (g : Leg) : MultipathDevice :=
  <["device" := "/dev/" +++ leg_dev g]>
    (<["host" := leg_host g]>
       (<["channel" := leg_channel g]>
          (<["id" := leg_id g]>
             (<["lun" := leg_lun g]> ∅)))).

(** The lines below the first three: legs and the policy lines of their
    path groups. *)
Inductive Row : Type :=
| RowLeg (g : Leg)
| RowPolicy (l : string).

Definition rowLine (r : Row) : string :=
  match r with RowLeg g => legLine g | RowPolicy l => l end.

Definition wfRow (r : Row) : bool :=
  match r with RowLeg g => wfLeg g | RowPolicy l => Contains l "policy" end.

Definition rowLegs (rows : list Row) : list Leg :=
  omap (fun r => match r with RowLeg g => Some g | RowPolicy _ => None end) rows.

(** The first line: an optional action keyword, the mapper name, an
    optional WWID in parentheses, the rest. *)
Definition headerLine (action : option string) (name : string)
    (wwid : option string) (rest : string) : string :=
  match action with Some a => a +++ " " | None => EmptyString end
  +++ name
  +++ match wwid with Some w => " (" +++ w +++ ")" | None => EmptyString end
  +++ " " +++ rest.

Definition wfHeader (action : option string) (name : string)
    (wwid : option string) (rest : string) : bool :=
  match action with
  | Some a => isMultipathAction a
  | None => negb (isMultipathAction name)
  end
  && noChar " " name && noChar "(" name
  && noChar "(" rest && noChar ")" rest
  && match wwid with Some w => negb (String.eqb w EmptyString) | None => true end.

(** The result map of [FindMultipathDevice]. *)
Definition multipathInfo (name : string) (wwid : option string) (legs : list Leg)
  : gmap string value :=
  <["device" := VString ("/dev/mapper/" +++ name)]>
    (<["id" := VString (default name wwid)]>
       (<["name" := VString name]>
          (<["devices" := VMultipathDevices (map legDevice legs)]> ∅))).

(** ** A scripted host, for closed runs

    The world is the number of writes to a [scan] control file so far; a
    script answers every query from it. *)

Record Script : Type := mkScript {
  sc_stat : nat -> string -> stat_result;
  sc_cmd : nat -> string -> list string -> string * option error;
  sc_cmd_timeout : nat -> Z -> string -> list string -> error + (string * string);
  sc_link : nat -> string -> string * option error;
  sc_dir : nat -> string -> error + (error + list string)
}.

Definition isScanWrite (name : string) (args : list string) : bool :=
  String.eqb name "sh" &&
  match args with
  | [_; cmd] => HasPrefix cmd "echo " && Contains cmd "/scan"
  | _ => false
  end.

Definition simOS (sc : Script) : OS nat :=
  {| os_combined_output name args w :=
       (sc_cmd sc w name args, if isScanWrite name args then S w else w);
     os_start_wait t name args w := (sc_cmd_timeout sc w t name args, w);
     os_stat path w := (sc_stat sc w path, w);
     os_eval_symlinks path w := (sc_link sc w path, w);
     os_readdirnames path w := (sc_dir sc w path, w);
     os_tick _ w := w |}.

Definition st0 : St nat := mkSt O [].

Definition float_stub : string -> Z * option error :=
  fun s => match Atoi s with inl z => (z, None) | inr e => (0, Some e) end.

(** [strings.Join(lines, "\n")] with a newline after the last line too. *)
Fixpoint unlines (ls : list string) : string :=
  match ls with
  | [] => EmptyString
  | l :: rest => l +++ String nl (unlines rest)
  end.

Definition inList (s : string) (l : list string) : bool := existsb (String.eqb s) l.

Module Scenario.

(** [systool -c fc_host -v] with two adapters. *)
Definition systoolRecord (host pci wwnn wwpn : string) : list string :=
  [ "  Class Device = " +++ dquote +++ host +++ dquote;
    "  Class Device path = " +++ dquote +++ "/sys/devices/pci0000:00/0000:00:03.0/"
      +++ pci +++ "/" +++ host +++ "/fc_host/" +++ host +++ dquote;
    "    node_name           = " +++ dquote +++ "0x" +++ wwnn +++ dquote;
    "    port_name           = " +++ dquote +++ "0x" +++ wwpn +++ dquote;
    "    port_state          = " +++ dquote +++ "Online" +++ dquote;
    EmptyString;
    "    Device = " +++ dquote +++ host +++ dquote;
    "      uevent              = " +++ dquote +++ "DEVTYPE=scsi_host" +++ dquote;
    EmptyString;
    EmptyString ].

Definition systoolOut : string :=
  unlines (["Class = " +++ dquote +++ "fc_host" +++ dquote; EmptyString]
           ++ systoolRecord "host6" "0000:05:00.2" "50014380242b9751" "50014380242b9750"
           ++ systoolRecord "host7" "0000:05:00.3" "50014380242b9753" "50014380242b9752").

(** Two target WWNs, one shared LUN. *)
Definition descriptor : gmap string value :=
  <["target_wwn" := VStrings ["50014380186B3F65"; "50014380186B3F67"]]>
    (<["target_lun" := VString "1"]> ∅).

Definition descriptorNoMultipath : gmap string value :=
  <["use_multipath" := VBool false]> descriptor.

Definition candidate (pci wwn : string) : string :=
  "/dev/disk/by-path/pci-" +++ pci +++ "-fc-0x" +++ wwn +++ "-lun-1".

Definition liveCandidate : string := candidate "0000:05:00.2" "50014380186b3f65".

Definition allCandidates : list string :=
  [ candidate "0000:05:00.2" "50014380186b3f65";
    candidate "0000:05:00.2" "50014380186b3f67";
    candidate "0000:05:00.3" "50014380186b3f65";
    candidate "0000:05:00.3" "50014380186b3f67" ].

Definition grepTarget (host wwpn : string) : string :=
  "grep -Gil " +++ dquote +++ wwpn +++ dquote
    +++ " /sys/class/fc_transport/target" +++ host +++ ":*/port_name".

(** The commands every scenario shares.  [grepHit] says which target
    ports an adapter sees; [mpaths] is what [multipath -l] prints. *)
Definition commands (grepHit : string -> string -> bool) (mpaths lsblk : string)
    (w : nat) (name : string) (args : list string) : string * option error :=
  if String.eqb name "systool" then (systoolOut, None)
  else if String.eqb name "dd" then
    if inList ("if=" +++ liveCandidate) args then (EmptyString, None)
    else ("dd: failed to open", Some (ErrOS "exit status 1"))
  else if String.eqb name "/lib/udev/scsi_id" then
    ("3600508b4000156d700012000000b0000" +++ String nl EmptyString, None)
  else if String.eqb name "multipath" then (mpaths, None)
  else if String.eqb name "lsblk" then (lsblk, None)
  else if String.eqb name "sg_scan" then
    ("/dev/sdb: scsi6 channel=0 id=0 lun=1 [em]" +++ String nl EmptyString, None)
  else if String.eqb name "sh" then
    match args with
    | [_; cmd] =>
        if HasPrefix cmd "grep " then
          if grepHit "6" "50014380186b3f65" && String.eqb cmd (grepTarget "6" "50014380186b3f65")
          then ("/sys/class/fc_transport/target6:0:0/port_name" +++ String nl EmptyString, None)
          else if grepHit "7" "50014380186b3f67" && String.eqb cmd (grepTarget "7" "50014380186b3f67")
          then ("/sys/class/fc_transport/target7:0:1/port_name" +++ String nl EmptyString, None)
          else (EmptyString, Some (ErrOS "exit status 1"))
        else (EmptyString, None)
    | _ => (EmptyString, None)
    end
  else (EmptyString, Some (ErrOS "executable file not found in $PATH")).

Definition links (appearsAfter : nat) (w : nat) (path : string)
  : string * option error :=
  if inList path allCandidates then
    if String.eqb path liveCandidate && (appearsAfter <=? w)%nat then ("/dev/sdb", None)
    else (EmptyString, Some (ErrOS "lstat: no such file or directory"))
  else (path, None).

(** [appearsAfter] scan writes the live candidate and its device exist;
    [extra] lists what exists from the start. *)
Definition files (appearsAfter : nat) (extra : list string) (w : nat)
    (path : string) : stat_result :=
  if inList path (FCHostSysFSPath :: extra) then StatOk
  else if inList path [liveCandidate; "/dev/sdb"; "/sys/block/sdb/device/delete"] then
    if (appearsAfter <=? w)%nat then StatOk else StatNotExist
  else StatNotExist.

(** [/dev/disk/by-path] holds the entry of some other volume. *)
Definition byPathEntries : list string :=
  ["pci-0000:05:00.2-fc-0x50014380186b3f00-lun-0"].

Definition script (appearsAfter : nat) (extra : list string)
    (grepHit : string -> string -> bool) (mpaths lsblk : string) : Script :=
  {| sc_stat := files appearsAfter extra;
     sc_cmd := commands grepHit mpaths lsblk;
     sc_cmd_timeout _ _ _ _ := inr (EmptyString, EmptyString);
     sc_link := links appearsAfter;
     sc_dir _ _ := inr (inr byPathEntries) |}.

(** Single path, no multipath maps, device there from the start. *)
Definition plainHost : OS nat :=
  simOS (script 0 [] (fun _ _ => true) EmptyString EmptyString).

(** The device shows up after the first scan write. *)
Definition lateHost : OS nat :=
  simOS (script 1 [] (fun _ _ => true) EmptyString EmptyString).

(** The device never shows up. *)
Definition deadHost : OS nat :=
  simOS (script 1000 [] (fun _ _ => true) EmptyString EmptyString).

(** [lsblk -o NAME,RO -l -n] on a host where nothing is read-only. *)
Definition lsblkBody : string :=
  "sda                                       0" +++ String nl
    ("sdb                                       0" +++ String nl
       "3600508b4000156d700012000000b0000 (dm-1)  0").

Definition lsblkOut : string := lsblkBody +++ String nl EmptyString.

Definition mpathLink : string :=
  "/dev/disk/by-id/dm-uuid-mpath-3600508b4000156d700012000000b0000".

(** The multipath symlink is there and [lsblk] answers [lsblkOut]. *)
Definition mpathHost : OS nat :=
  simOS (script 0 [mpathLink] (fun _ _ => true) EmptyString lsblkOut).

Definition descriptorRW : gmap string value :=
  <["access_mode" := VString "rw"]> descriptor.

(** A [multipath -l] block: an action keyword, a WWID and three legs in
    two path groups, behind a line of log noise. *)
Definition mpathLegs : list Row :=
  [ RowLeg (mkLeg "| |- " "6" "0" "2" "0" "sde" "8:64  active undef  running");
    RowLeg (mkLeg "| `- " "6" "0" "4" "0" "sdg" "8:96  active undef  running");
    RowPolicy "`-+- policy='round-robin 0' prio=-1 status=enabled";
    RowLeg (mkLeg "  `- " "6" "0" "3" "0" "sdf" "8:80  active undef  running") ].

Definition mpathOut : string :=
  unlines
    ([ "Mar 17 14:32:37 | multipath.conf +29, invalid keyword: getuid_callout";
       headerLine (Some "reload:") "mpathb" (Some "36005076da00638089c000000000004d5")
                  "dm-2 IBM,2145";
       "size=954M features='1 queue_if_no_path' hwhandler='0' wp=rw";
       "|-+- policy='round-robin 0' prio=-1 status=active" ]
     ++ map rowLine mpathLegs).

(** [multipath -l] prints [mpathOut] and the mapper device exists. *)
Definition mpathListHost : OS nat :=
  simOS (script 0 ["/dev/mapper/mpathb"] (fun _ _ => true) mpathOut lsblkOut).

(** [ConnectVolume] on [plainHost] up to its retry loop. *)
Definition targetsFound : list Target :=
  [mkTarget "50014380186b3f65" "1"; mkTarget "50014380186b3f67" "1"].

Definition normalizedNoMultipath : gmap string value :=
  match addTargetsToConnectionProperties descriptorNoMultipath with
  | Ret n => n_arg n
  | Panic _ => ∅
  end.

Definition afterHBAs : outcome (list HBA * option error) * St nat :=
  GetFCHBAsInfo plainHost (mkSt O [EvLog "add Targets To connProps: %#v"]).

Definition hbasFound : list HBA :=
  match afterHBAs.1 with Ret (hbas, _) => hbas | Panic _ => [] end.

Definition afterPaths : outcome (list string * option error) * St nat :=
  getPossibleVolumePaths plainHost targetsFound hbasFound
    (mkSt (world afterHBAs.2) (trace afterHBAs.2 ++ [EvLog "FC HBAs Info: %#v"])).

Definition pollingState : St nat :=
  mkSt (world afterPaths.2) (trace afterPaths.2 ++ [EvLog "possibleVolumePaths: %#v"]).

End Scenario.

(** Descriptors the normalizer refuses, and one with a LUN that is no
    number. *)
Definition malformedDescriptor : gmap string value :=
  <["target_wwn" := VStrings ["50014380186B3F65"; "50014380186B3F67"]]>
    (<["target_luns" := VStrings ["1"; "2"; "3"]]> ∅).

Definition cardinalityError : error :=
  Errorf "unable to find potential volume paths for FC device with luns %#v and wwns %#v".

(** The root of a chain of [fmt.Errorf] wrappings. *)
Fixpoint rootCause (e : error) : error :=
  match e with
  | Wrapf _ cause => rootCause cause
  | _ => e
  end.

(** Hexadecimal digits back to a number. *)
Definition hexDigitVal (c : ascii) : option Z :=
  let n := Z.of_nat (nat_of_ascii c) in
  if isDigit c then Some (n - 48)
  else if (97 <=? n) && (n <=? 102) then Some (n - 87)
  else None.

Fixpoint hexVal (s : string) (acc : Z) : option Z :=
  match s with
  | EmptyString => Some acc
  | String c r => d ← hexDigitVal c; hexVal r (acc * 16 + d)
  end.

(** The flush policy in the words of the spec, on the two resolved
    paths: a flush is required "unless the used path's real target is
    identical to the candidate's real target AND resides directly under
    the device root". *)
Definition spec_RequiresFlush (rPath rPathUsed : string) : bool :=
  negb (String.eqb rPathUsed rPath
        && String.eqb (filepath_Split rPathUsed).1 "/dev/").

(** A row of the [lsblk] listing that [WaitForRW] takes as read-only: the
    first space-separated token contains the WWN and the last one reads
    as the number 1. *)
Definition isReadOnlyRow (deviceWwn l : string) : bool :=
  let parts := Split l " " in
  Contains (List.hd EmptyString parts) deviceWwn &&
  match Atoi (List.last parts EmptyString) with
  | inl roi => roi =? 1
  | inr _ => false
  end.

(** The last token of a row reads as a number. *)
Definition hasNumericFlag (l : string) : bool :=
  match Atoi (List.last (Split l " ") EmptyString) with
  | inl _ => true
  | inr _ => false
  end.

Definition lsblkArgs : list string := ["-o"; "NAME,RO"; "-l"; "-n"].

(** What one failed [WaitForRW] leaves in the trace. *)
Definition waitRWEvents : list Event :=
  [EvLog "checking to see if %s is read-only"; EvExec "lsblk" lsblkArgs].

Definition isAtoiError (e : error) : Prop :=
  exists s, e = ErrSyntax "Atoi" s \/ e = ErrRange "Atoi" s.

(** On this host every successful [lsblk] listing ends with a newline and
    has no read-only row for the WWN. *)
Definition lsblkTrailingNewline {W} (os : OS W) (deviceWwn : string) : Prop :=
  forall w out w',
    os_combined_output os "lsblk" lsblkArgs w = ((out, None), w') ->
    (exists body, out = body +++ String nl EmptyString) /\
    Forall (fun l => isReadOnlyRow deviceWwn l = false) (Split out nl).

(** *** Counting rescans and waits *)

Definition rescanLog : string := "rescaning HBAs %v with connection properties %#v".

Definition isRescan (e : Event) : bool :=
  match e with
  | EvLog f => String.eqb f rescanLog
  | _ => false
  end.

Definition isTick (e : Event) : bool :=
  match e with
  | EvTick _ => true
  | _ => false
  end.

(** The calls of [RescanHosts] and the waits on the ticker in a trace. *)
Definition rescanCount (evs : list Event) : nat := length (List.filter isRescan evs).
Definition tickCount (evs : list Event) : nat := length (List.filter isTick evs).

(** Neither the start of a rescan nor a wait. *)
Definition plainEvent (e : Event) : bool := negb (isRescan e) && negb (isTick e).

(** [ConnectVolume]'s retry loop, written out: three attempts, a rescan
    and a wait after each one that finds nothing. *)
Definition pollThrice {W} (os : OS W) (hbas : list HBA)
    (connProperties : gmap string value) (hostDevices : list string)
    (captured : string * string) : M W (bool * (string * string)) :=
  let tick := ask (EvTick 5) (fun w => (tt, os_tick os 5 w)) in
  r ← scanHostDevices os hostDevices;
  match r with
  | inr found => mret (true, found)
  | inl _ =>
      RescanHosts os hbas connProperties;; tick;;
      r ← scanHostDevices os hostDevices;
      match r with
      | inr found => mret (true, found)
      | inl _ =>
          RescanHosts os hbas connProperties;; tick;;
          r ← scanHostDevices os hostDevices;
          match r with
          | inr found => mret (true, found)
          | inl _ =>
              RescanHosts os hbas connProperties;; tick;;
              mret (false, captured)
          end
      end
  end.

(** [ConnectVolume] gets as far as its retry loop: the descriptor is
    normalized to [connProperties], the adapters [hbas] are found and the
    candidate paths [hostDevices] computed, which leaves the host in
    [st']. *)
Definition reachesPolling {W} (os : OS W) (connectionProperties : gmap string value)
    (st : St W) (connProperties : gmap string value) (hbas : list HBA)
    (hostDevices : list string) (st' : St W) : Prop :=
  exists arg targets st1 st2,
    addTargetsToConnectionProperties connectionProperties
      = Ret (mkNormalized arg (Some connProperties) None) /\
    GetFCHBAsInfo os (mkSt (world st) (trace st ++ [EvLog "add Targets To connProps: %#v"]))
      = (Ret (hbas, None), st1) /\
    hbas <> [] /\
    index connProperties "targets" = VTargets targets /\
    getPossibleVolumePaths os targets hbas
        (mkSt (world st1) (trace st1 ++ [EvLog "FC HBAs Info: %#v"]))
      = (Ret (hostDevices, None), st2) /\
    st' = mkSt (world st2) (trace st2 ++ [EvLog "possibleVolumePaths: %#v"]).

(** Every event the computation adds to the trace satisfies [P]. *)
Definition quiet {W} (P : Event -> bool) {A} (m : M W A) : Prop :=
  forall st, exists evs, trace (m st).2 = trace st ++ evs /\ forallb P evs = true.

(** What follows the last rescan in a trace. *)
Fixpoint afterLastRescan (evs : list Event) : option (list Event) :=
  match evs with
  | [] => None
  | e :: rest =>
      match afterLastRescan rest with
      | Some s => Some s
      | None => if isRescan e then Some rest else None
      end
  end.

(** The existence probe or the raw read of a candidate path. *)
Definition isCandidateCheck (candidates : list string) (e : Event) : bool :=
  match e with
  | EvStat p => inList p candidates
  | EvExec name _ => String.eqb name "dd"
  | _ => false
  end.

(** *** What to look for in a trace *)

(** The commands written to a [scan] control file, in order. *)
Definition scanWrites (evs : list Event) : list string :=
  omap (fun e =>
          match e with
          | EvExec name [_; cmd] =>
              if isScanWrite name ["-c"; cmd] then Some cmd else None
          | _ => None
          end) evs.

(** A run of [multipath -l]. *)
Definition isMultipathList (e : Event) : bool :=
  match e with
  | EvExec name (flag :: _) => String.eqb name "multipath" && String.eqb flag "-l"
  | _ => false
  end.

(** What the guarded block of [DisconnectVolume] would run: the raw read
    of a path, the WWN query, the flush of a multipath map. *)
Definition isFlushBlockEvent (e : Event) : bool :=
  match e with
  | EvExec name _ => String.eqb name "dd" || String.eqb name "/lib/udev/scsi_id"
  | EvExecTimeout _ name _ => String.eqb name "multipath"
  | EvLog f => String.eqb f "flush multipath device %s"
  | _ => false
  end.

(** The first adapter sees none of the target ports, the second sees its
    own. *)
Definition halfZonedHost : OS nat :=
  simOS (Scenario.script 0 [] (fun host _ => String.eqb host "7") EmptyString EmptyString).

(** No adapter sees any target port. *)
Definition unzonedHost : OS nat :=
  simOS (Scenario.script 0 [] (fun _ _ => false) EmptyString EmptyString).

(** * Theorems *)

(** ** Running the monad *)

Ltac munfold :=
  unfold mbind, mret, M_bind, M_ret, bind, ret, panic, ask, emit, log_printf in *.

(** ** Malformed descriptors at the three entry points *)

Section EntryPoints.
Context {W : Type} (os : OS W).
Context {F : Type} (ParseFloat : string -> F * option error) (zeroF : F).

Lemma ConnectVolume_validation_error cp a r e (st : St W) :
  addTargetsToConnectionProperties cp = Ret (mkNormalized a r (Some e)) ->
  ConnectVolume os cp st = (Ret (None, Some e), st).
Proof. intros H. unfold ConnectVolume. rewrite H. reflexivity. Qed.

Lemma ExtendVolume_validation_error cp a r e (st : St W) :
  addTargetsToConnectionProperties cp = Ret (mkNormalized a r (Some e)) ->
  ExtendVolume os ParseFloat zeroF cp st
  = (Ret (Some (Wrapf "failed add targets to connection properties:%v" e)), st).
Proof. intros H. unfold ExtendVolume. rewrite H. reflexivity. Qed.

(** [DisconnectVolume] logs the error and goes on with the nil map. *)
Lemma DisconnectVolume_validation_panics cp a e di (st : St W) :
  addTargetsToConnectionProperties cp = Ret (mkNormalized a None (Some e)) ->
  DisconnectVolume os cp di st
  = (Panic "interface conversion: interface {} is nil, not []initiator.Target",
     mkSt (world st)
          (trace st ++ [EvLog "failed addTargetsToConnectionProperties: %#v, ERROR:%v"])).
Proof. intros H. unfold DisconnectVolume. rewrite H. reflexivity. Qed.

End EntryPoints.

(** C8, evaluated: two WWNs with three LUNs.  [ConnectVolume] and
    [ExtendVolume] hand the validation error back without touching the
    host; [DisconnectVolume] only logs it and then panics on the nil map
    instead of returning. *)
Theorem malformed_descriptor_entry_points :
  ConnectVolume Scenario.plainHost malformedDescriptor st0
    = (Ret (None, Some cardinalityError), st0) /\
  ExtendVolume Scenario.plainHost float_stub 0 malformedDescriptor st0
    = (Ret (Some (Wrapf "failed add targets to connection properties:%v" cardinalityError)), st0) /\
  DisconnectVolume Scenario.plainHost malformedDescriptor None st0
    = (Panic "interface conversion: interface {} is nil, not []initiator.Target",
       mkSt O [EvLog "failed addTargetsToConnectionProperties: %#v, ERROR:%v"]).
Proof. repeat split; vm_compute; reflexivity. Qed.

(** ** LUN normalization *)

Lemma sapp_cons (c : ascii) (a b : string) : String c a +++ b = String c (a +++ b).
Proof. reflexivity. Qed.

Lemma sapp_nil_l (s : string) : EmptyString +++ s = s.
Proof. reflexivity. Qed.

Lemma sapp_nil_r (s : string) : s +++ EmptyString = s.
Proof. induction s as [|c s IH]; [reflexivity | by rewrite sapp_cons, IH]. Qed.

Lemma sapp_assoc (a b c : string) : (a +++ b) +++ c = a +++ (b +++ c).
Proof. induction a as [|x a IH]; [reflexivity | by rewrite !sapp_cons, IH]. Qed.

Lemma slength_app (a b : string) :
  String.length (a +++ b) = (String.length a + String.length b)%nat.
Proof.
  induction a as [|x a IH]; [reflexivity | rewrite sapp_cons; simpl; by rewrite IH].
Qed.

Lemma hexDigit_val (m : Z) : 0 <= m < 16 -> hexDigitVal (hexDigit m) = Some m.
Proof.
  intros Hm.
  assert (m = 0 \/ m = 1 \/ m = 2 \/ m = 3 \/ m = 4 \/ m = 5 \/ m = 6 \/ m = 7 \/
          m = 8 \/ m = 9 \/ m = 10 \/ m = 11 \/ m = 12 \/ m = 13 \/ m = 14 \/ m = 15)
    as Hcases by lia.
  repeat (destruct Hcases as [-> | Hcases]; [reflexivity|]).
  subst. reflexivity.
Qed.

Lemma hexVal_app (a b : string) (acc : Z) :
  hexVal (a +++ b) acc = hexVal a acc ≫= hexVal b.
Proof.
  revert acc. induction a as [|c a IH]; intros acc; [reflexivity|].
  rewrite sapp_cons. simpl.
  destruct (hexDigitVal c); simpl; [apply IH | reflexivity].
Qed.

(** [hexDigits] writes at most [k] digits for a number below [16^k], and
    they read back as the number. *)
Lemma hexDigits_spec (fuel : nat) :
  forall (k : nat) (n : Z) (acc : string),
    (1 <= k <= fuel)%nat -> 0 <= n < 16 ^ Z.of_nat k ->
    exists ds,
      hexDigits fuel n acc = ds +++ acc /\
      (1 <= String.length ds <= k)%nat /\
      forall a, hexVal ds a = Some (a * 16 ^ Z.of_nat (String.length ds) + n).
Proof.
  induction fuel as [|fuel IH]; intros k n acc Hk Hn; [lia|].
  simpl.
  assert (Hd : 0 <= n mod 16 < 16) by (apply Z.mod_pos_bound; lia).
  destruct (Z.eqb_spec (n / 16) 0) as [Hz|Hnz].
  - exists (String (hexDigit (n mod 16)) EmptyString). simpl.
    split; [reflexivity|]. split; [lia|].
    intros a. rewrite (hexDigit_val _ Hd). simpl. f_equal.
    rewrite (Z.div_mod n 16) at 2 by lia. lia.
  - destruct k as [|k]; [lia|].
    assert (Hk' : (1 <= k)%nat).
    { destruct k; [|lia]. exfalso. apply Hnz.
      apply Z.div_small. simpl in Hn. lia. }
    assert (Hn' : 0 <= n / 16 < 16 ^ Z.of_nat k).
    { split; [apply Z.div_pos; lia|].
      apply Z.div_lt_upper_bound; [lia|].
      rewrite Nat2Z.inj_succ, Z.pow_succ_r in Hn by lia. lia. }
    destruct (IH k (n / 16) (String (hexDigit (n mod 16)) acc)) as (ds & He & Hl & Hv);
      [lia | exact Hn' |].
    exists (ds +++ String (hexDigit (n mod 16)) EmptyString).
    split; [rewrite He, sapp_assoc; reflexivity|].
    rewrite slength_app. simpl. split; [lia|].
    intros a. rewrite hexVal_app, Hv. simpl.
    rewrite (hexDigit_val _ Hd). simpl. f_equal.
    replace (String.length ds + 1)%nat with (S (String.length ds)) by lia.
    rewrite Nat2Z.inj_succ, Z.pow_succ_r by lia.
    rewrite (Z.div_mod n 16) at 3 by lia. lia.
Qed.

Lemma hexVal_zeros (m : nat) (s : string) : hexVal (zeros m +++ s) 0 = hexVal s 0.
Proof.
  induction m as [|m IH]; [reflexivity|].
  change (zeros (S m) +++ s) with (String "0"%char (zeros m +++ s)).
  simpl. exact IH.
Qed.

Lemma slength_zeros (m : nat) : String.length (zeros m) = m.
Proof. induction m as [|m IH]; simpl; [reflexivity | by rewrite IH]. Qed.

Lemma fmt_04x_16bit (n : Z) :
  0 <= n < 65536 ->
  String.length (fmt_04x n) = 4%nat /\ hexVal (fmt_04x n) 0 = Some n.
Proof.
  intros Hn. unfold fmt_04x.
  destruct (hexDigits_spec 16 4 n EmptyString) as (ds & He & Hl & Hv);
    [lia | change (16 ^ Z.of_nat 4) with 65536; lia |].
  rewrite He, sapp_nil_r. split.
  - rewrite slength_app, slength_zeros. lia.
  - rewrite hexVal_zeros, Hv. reflexivity.
Qed.

Lemma land_16 (n : Z) : Z.land n 65535 = n mod 65536.
Proof. change 65535 with (Z.ones 16). rewrite Z.land_ones by lia. reflexivity. Qed.

Lemma formatLunID_extended (n : Z) :
  256 <= n ->
  exists lo hi,
    formatLunID (VInt n) = inl (VString ("0x" +++ lo +++ hi +++ "00000000")) /\
    String.length lo = 4%nat /\ String.length hi = 4%nat /\
    hexVal lo 0 = Some (n mod 65536) /\
    hexVal hi 0 = Some ((n / 65536) mod 65536).
Proof.
  intros Hn. unfold formatLunID.
  destruct (Z.ltb_spec n 256) as [?|_]; [lia|].
  rewrite !land_16, Z.shiftr_div_pow2 by lia. change (2 ^ 16) with 65536.
  destruct (fmt_04x_16bit (n mod 65536)) as [Hl1 Hv1];
    [apply Z.mod_pos_bound; lia|].
  destruct (fmt_04x_16bit ((n / 65536) mod 65536)) as [Hl2 Hv2];
    [apply Z.mod_pos_bound; lia|].
  eauto 10.
Qed.

Example formatLunID_string_300 : formatLunID (VString "300") = inl (VInt 300).
Proof. reflexivity. Qed.

(** C5, the counterexample: the low 16 bits of 300 are 0x012c, so the
    extended form of 300 is not the one the claim writes down. *)
Lemma lun_300_extended_form :
  ProcessLunID (VInt 300) = inl (VString "0x012c000000000000") /\
  ProcessLunID (VInt 300) <> inl (VString "0x002c000000000000").
Proof. split; [reflexivity | discriminate]. Qed.

(** C5, as amended: an integer LUN below 256 is kept; an integer LUN of
    256 or more becomes [0x], four hex digits of its low 16 bits, four of
    its next 16 bits, and eight zeros; a string LUN is accepted iff it
    parses as an integer, and below 256 it becomes that integer.  5 maps
    to 5, 300 to 0x012c000000000000, the string 42 to 42, and the string
    abc fails. *)
Theorem lun_normalization :
  (forall n, n < 256 -> ProcessLunID (VInt n) = inl (VInt n)) /\
  (forall n, 256 <= n ->
     exists lo hi,
       ProcessLunID (VInt n) = inl (VString ("0x" +++ lo +++ hi +++ "00000000")) /\
       String.length lo = 4%nat /\ String.length hi = 4%nat /\
       hexVal lo 0 = Some (n mod 65536) /\
       hexVal hi 0 = Some ((n / 65536) mod 65536)) /\
  (forall s i, Atoi s = inl i -> i < 256 -> ProcessLunID (VString s) = inl (VInt i)) /\
  (forall s, (exists e, ProcessLunID (VString s) = inr e) <-> (exists e, Atoi s = inr e)) /\
  ProcessLunID (VInt 5) = inl (VInt 5) /\
  ProcessLunID (VInt 300) = inl (VString "0x012c000000000000") /\
  ProcessLunID (VString "42") = inl (VInt 42) /\
  ProcessLunID (VString "abc") = inr (Errorf "lun_id cannot convert to int: %s").
Proof.
  split; [|split; [|split; [|split]]].
  - intros n Hn. simpl. destruct (Z.ltb_spec n 256); [reflexivity | lia].
  - intros n Hn. destruct (formatLunID_extended n Hn) as (lo & hi & H & ?).
    exists lo, hi. split; [|done]. unfold ProcessLunID. rewrite H. reflexivity.
  - intros s i Hs _. simpl. rewrite Hs. reflexivity.
  - intros s. simpl. destruct (Atoi s) as [i|e]; split; intros [e' He'];
      try discriminate; eauto.
  - repeat split; reflexivity.
Qed.

Lemma lun_normalization_witness :
  ProcessLunID (VInt 7) = inl (VInt 7) /\
  (exists lo hi,
     ProcessLunID (VInt 70000) = inl (VString ("0x" +++ lo +++ hi +++ "00000000")) /\
     String.length lo = 4%nat /\ String.length hi = 4%nat /\
     hexVal lo 0 = Some (70000 mod 65536) /\
     hexVal hi 0 = Some ((70000 / 65536) mod 65536)) /\
  ProcessLunID (VString "17") = inl (VInt 17).
Proof.
  destruct lun_normalization as (H1 & H2 & H3 & _).
  split; [apply H1; lia|].
  split; [apply H2; lia|].
  apply (H3 "17" 17); [reflexivity | lia].
Defined.

(** ** The property normalizer *)

Lemma lowerChar_idem (c : ascii) : lowerChar (lowerChar c) = lowerChar c.
Proof. destruct c as [[] [] [] [] [] [] [] []]; reflexivity. Qed.

Lemma ToLower_idem (s : string) : ToLower (ToLower s) = ToLower s.
Proof.
  induction s as [|c s IH]; simpl; [reflexivity|].
  by rewrite lowerChar_idem, IH.
Qed.

Lemma descriptorLuns_storeWwns cp wwns :
  descriptorLuns (storeWwns cp wwns) = descriptorLuns cp.
Proof.
  unfold storeWwns, descriptorLuns, index.
  destruct (default VNil (cp !! "target_wwns")), (default VNil (cp !! "target_wwn"));
    try reflexivity; by rewrite !lookup_insert_ne.
Qed.

Lemma storeWwns_targets cp wwns : storeWwns cp wwns !! "targets" = cp !! "targets".
Proof.
  unfold storeWwns.
  destruct (index cp "target_wwns"), (index cp "target_wwn");
    try reflexivity; by rewrite lookup_insert_ne.
Qed.

Lemma updateItMap_targets cp ts : updateItMap cp ts !! "targets" = cp !! "targets".
Proof.
  unfold updateItMap.
  destruct (cp !! "initiator_target_map") as [[]|]; try reflexivity.
  by rewrite !lookup_insert_ne.
Qed.

Lemma zipTargetsFrom_spec luns :
  forall ws i acc,
    (length ws + i <= length luns)%nat ->
    zipTargetsFrom luns i ws acc
    = Ret (acc ++ zip_with mkTarget ws (List.skipn i luns)).
Proof.
  induction ws as [|w ws IH]; intros i acc Hlen; simpl.
  - by rewrite app_nil_r.
  - simpl in Hlen.
    destruct (lookup_lt_is_Some_2 luns i) as [l Hl]; [lia|].
    rewrite Hl, IH by lia.
    rewrite <- app_assoc. simpl.
    destruct (List.skipn i luns) as [|l' rest] eqn:Hdrop.
    + apply (f_equal (@length _)) in Hdrop. rewrite length_skipn in Hdrop.
      simpl in Hdrop. lia.
    + assert (l' = l /\ List.skipn (S i) luns = rest) as [-> ->]; [|reflexivity].
      clear -Hl Hdrop. revert luns Hl Hdrop.
      induction i as [|i IHi]; intros [|x luns] Hl Hdrop; simpl in *; try discriminate.
      * by inversion Hdrop; inversion Hl; subst.
      * by apply IHi.
Qed.

Lemma pairTargets_paired wwns luns :
  length luns = length wwns -> (0 < length luns)%nat ->
  pairTargets wwns luns = Ret (Some (zip_with mkTarget wwns luns)).
Proof.
  intros Heq Hpos. unfold pairTargets, zipTargets.
  rewrite Heq, Nat.eqb_refl.
  destruct (Nat.ltb_spec 0 (length wwns)) as [_|?]; [|lia]. simpl.
  by rewrite zipTargetsFrom_spec by lia.
Qed.

Lemma pairTargets_broadcast wwns l0 :
  (1 < length wwns)%nat ->
  pairTargets wwns [l0] = Ret (Some (map (fun w => mkTarget w l0) wwns)).
Proof.
  intros Hlen. unfold pairTargets.
  change (length [l0]) with 1%nat.
  destruct (Nat.eqb_spec 1 (length wwns)) as [?|_]; [lia|].
  destruct (Nat.ltb_spec 1 (length wwns)) as [_|?]; [|lia]. reflexivity.
Qed.

Lemma pairTargets_refused wwns luns :
  ~ (length luns = length wwns /\ (0 < length luns)%nat) ->
  ~ (length luns = 1%nat /\ (1 < length wwns)%nat) ->
  pairTargets wwns luns = Ret None.
Proof.
  intros H1 H2. unfold pairTargets.
  destruct (Nat.eqb_spec (length luns) (length wwns)),
           (Nat.ltb_spec 0 (length luns)),
           (Nat.eqb_spec (length luns) 1),
           (Nat.ltb_spec 1 (length wwns)); simpl; try reflexivity; exfalso; tauto.
Qed.

(** C4: a descriptor whose WWN and LUN lists have equal non-zero length,
    or that has several WWNs and one LUN, is normalized to exactly
    [max (length wwns) (length luns)] targets, the i-th carrying the i-th
    WWN in lower case and its LUN (the shared one when there is only
    one); any other pair of cardinalities is refused with the validation
    error, the nil map is returned and no targets are stored. *)
Theorem normalization_targets (cp : gmap string value) (raw luns : list string) :
  rawWwns cp = Some raw -> descriptorLuns cp = Some luns ->
  ((length luns = length raw /\ (0 < length luns)%nat) \/
   (length luns = 1%nat /\ (1 < length raw)%nat) ->
   exists cp' targets,
     addTargetsToConnectionProperties cp = Ret (mkNormalized cp' (Some cp') None) /\
     cp' !! "targets" = Some (VTargets targets) /\
     length targets = Nat.max (length raw) (length luns) /\
     map t_wwpn targets = map ToLower raw /\
     Forall (fun t => ToLower (t_wwpn t) = t_wwpn t) targets /\
     forall i t, targets !! i = Some t ->
       luns !! (if (length luns =? 1)%nat then O else i) = Some (t_lun t)) /\
  (~ ((length luns = length raw /\ (0 < length luns)%nat) \/
      (length luns = 1%nat /\ (1 < length raw)%nat)) ->
   exists cp',
     addTargetsToConnectionProperties cp
       = Ret (mkNormalized cp' None (Some cardinalityError)) /\
     cp' !! "targets" = cp !! "targets").
Proof.
  intros Hraw Hluns.
  assert (Hw : descriptorWwns cp = Some (map ToLower raw))
    by (unfold descriptorWwns; by rewrite Hraw).
  unfold addTargetsToConnectionProperties.
  rewrite Hw, descriptorLuns_storeWwns, Hluns.
  split.
  - intros Hcard.
    assert (exists targets,
      pairTargets (map ToLower raw) luns = Ret (Some targets) /\
      length targets = Nat.max (length raw) (length luns) /\
      map t_wwpn targets = map ToLower raw /\
      forall i t, targets !! i = Some t ->
        luns !! (if (length luns =? 1)%nat then O else i) = Some (t_lun t))
      as (targets & Hp & Hlen & Hws & Hls).
    { destruct (decide (length luns = length raw /\ (0 < length luns)%nat))
        as [[Heq Hpos]|Hnp].
      - exists (zip_with mkTarget (map ToLower raw) luns).
        split; [apply pairTargets_paired; [by rewrite length_map | done]|].
        split; [rewrite length_zip_with, length_map; lia|].
        split.
        + clear -Heq. revert luns Heq.
          induction raw as [|r raw IH]; intros [|l luns] Heq; simpl in *;
            try discriminate; try reflexivity.
          f_equal. apply IH. lia.
        + intros i t Ht.
          apply lookup_zip_with_Some in Ht as (w & l & -> & _ & Hl). simpl.
          destruct (Nat.eqb_spec (length luns) 1) as [H1|_]; [|done].
          destruct luns as [|l0 [|]]; simpl in H1; try discriminate.
          destruct i; [done | discriminate].
      - destruct Hcard as [?|[H1 Hmany]]; [done|].
        destruct luns as [|l0 [|]]; simpl in H1; try discriminate.
        exists (map (fun w => mkTarget w l0) (map ToLower raw)).
        split; [apply pairTargets_broadcast; by rewrite length_map|].
        split; [rewrite !length_map; simpl; lia|].
        split; [rewrite map_map; simpl; apply map_id|].
        intros i t Ht. simpl.
        rewrite list_lookup_fmap in Ht.
        destruct (map ToLower raw !! i); simpl in Ht; [|discriminate].
        by inversion Ht. }
    rewrite Hp.
    eexists _, targets. split; [reflexivity|].
    split; [rewrite updateItMap_targets; apply lookup_insert_eq|].
    split; [done|]. split; [done|]. split; [|done].
    apply Forall_forall. intros t Ht.
    assert (Hin : In (t_wwpn t) (map ToLower raw))
      by (rewrite <- Hws; apply in_map; by apply list_elem_of_In).
    apply in_map_iff in Hin as (r & <- & _). apply ToLower_idem.
  - intros Hcard.
    rewrite pairTargets_refused; [| rewrite length_map; tauto ..].
    eexists. split; [reflexivity|]. apply storeWwns_targets.
Qed.

Lemma normalization_targets_witness :
  (exists cp' targets,
     addTargetsToConnectionProperties Scenario.descriptor
       = Ret (mkNormalized cp' (Some cp') None) /\
     cp' !! "targets" = Some (VTargets targets) /\
     length targets = 2%nat /\
     map t_wwpn targets = ["50014380186b3f65"; "50014380186b3f67"] /\
     Forall (fun t => ToLower (t_wwpn t) = t_wwpn t) targets /\
     forall i t, targets !! i = Some t -> ["1"] !! O = Some (t_lun t)) /\
  (exists cp',
     addTargetsToConnectionProperties malformedDescriptor
       = Ret (mkNormalized cp' None (Some cardinalityError)) /\
     cp' !! "targets" = malformedDescriptor !! "targets").
Proof.
  split.
  - apply (proj1 (normalization_targets Scenario.descriptor
                    ["50014380186B3F65"; "50014380186B3F67"] ["1"]
                    eq_refl eq_refl)).
    right. simpl. lia.
  - apply (proj2 (normalization_targets malformedDescriptor
                    ["50014380186B3F65"; "50014380186B3F67"] ["1"; "2"; "3"]
                    eq_refl eq_refl)).
    simpl. lia.
Defined.

(** ** The flush policy *)

Lemma filepath_Split_dir (path : string) :
  (filepath_Split path).1 = EmptyString \/
  exists d, (filepath_Split path).1 = d +++ "/".
Proof.
  induction path as [|c r IH]; simpl; [by left|].
  destruct (filepath_Split r) as [dir file]. simpl in IH.
  destruct (String.eqb_spec dir EmptyString) as [->|Hne].
  - destruct (chr_eqb c "/") eqn:Hc; simpl; [|by left].
    apply Ascii.eqb_eq in Hc. subst. right. by exists EmptyString.
  - destruct IH as [?|[d ->]]; [done|]. right. by exists (String c d).
Qed.

(** The directory part never equals the string the code compares it to. *)
Lemma filepath_Split_dir_not_dev (path : string) :
  String.eqb (filepath_Split path).1 "/dev" = false.
Proof.
  apply String.eqb_neq. intros Heq.
  destruct (filepath_Split_dir path) as [He|[d Hd]]; rewrite Heq in *; [discriminate|].
  destruct d as [|c1 [|c2 [|c3 [|c4 [|c5 d]]]]]; discriminate.
Qed.

Section FlushPolicy.
Context {W : Type} (os : OS W).

Lemma RequiresFlush_skipped devicePath pathUsed wasMultipath (st : St W) :
  pathUsed = EmptyString \/ wasMultipath = true ->
  RequiresFlush os devicePath pathUsed wasMultipath st = (Ret (false, None), st).
Proof.
  intros [-> | ->]; unfold RequiresFlush; [reflexivity|].
  by rewrite orb_true_r.
Qed.

(** Once both paths resolve, the directory test lets every path through:
    the result is [true] whatever the two real targets are. *)
Lemma RequiresFlush_resolved devicePath pathUsed (st : St W) rPath rPathUsed w1 w2 :
  pathUsed <> EmptyString ->
  os_eval_symlinks os devicePath (world st) = ((rPath, None), w1) ->
  os_eval_symlinks os pathUsed w1 = ((rPathUsed, None), w2) ->
  RequiresFlush os devicePath pathUsed false st
  = (Ret (true, None),
     mkSt w2 (trace st ++ [EvEvalSymlinks devicePath] ++ [EvEvalSymlinks pathUsed])).
Proof.
  intros Hne H1 H2. unfold RequiresFlush.
  apply String.eqb_neq in Hne. rewrite Hne. simpl. munfold.
  rewrite H1. simpl. rewrite H2. simpl.
  pose proof (filepath_Split_dir_not_dev rPathUsed) as Hd.
  destruct (filepath_Split rPathUsed) as [dir file]. simpl in Hd.
  rewrite Hd, orb_true_r, <- app_assoc. reflexivity.
Qed.

(** C3, as amended: no flush when no path was used or multipath was used;
    otherwise, with both paths resolved, a flush is required whenever the
    used path's real target is the candidate's real target, and whenever
    it does not lie directly under /dev (so a symlink redirected outside
    /dev still requires one); a path that does not resolve gives an
    error. *)
Theorem RequiresFlush_policy devicePath pathUsed wasMultipath (st : St W) :
  (pathUsed = EmptyString \/ wasMultipath = true ->
   RequiresFlush os devicePath pathUsed wasMultipath st = (Ret (false, None), st)) /\
  (pathUsed <> EmptyString -> wasMultipath = false ->
   forall rPath rPathUsed w1 w2,
     os_eval_symlinks os devicePath (world st) = ((rPath, None), w1) ->
     os_eval_symlinks os pathUsed w1 = ((rPathUsed, None), w2) ->
     rPathUsed = rPath \/ (filepath_Split rPathUsed).1 <> "/dev/" ->
     (RequiresFlush os devicePath pathUsed wasMultipath st).1 = Ret (true, None)) /\
  (pathUsed <> EmptyString -> wasMultipath = false ->
   forall rPath e w1,
     os_eval_symlinks os devicePath (world st) = ((rPath, Some e), w1) ->
     exists e', (RequiresFlush os devicePath pathUsed wasMultipath st).1
                = Ret (false, Some e')).
Proof.
  split; [apply RequiresFlush_skipped|]. split.
  - intros Hne -> rPath rPathUsed w1 w2 H1 H2 _.
    by rewrite (RequiresFlush_resolved _ _ _ _ _ _ _ Hne H1 H2).
  - intros Hne -> rPath e w1 H1. unfold RequiresFlush.
    apply String.eqb_neq in Hne. rewrite Hne. simpl. munfold.
    rewrite H1. simpl. eauto.
Qed.

End FlushPolicy.

(** C3, the counterexample: the used path is the candidate itself and
    lies directly under /dev; the claim has no flush, the code flushes. *)
Lemma RequiresFlush_same_device_under_dev :
  (RequiresFlush Scenario.plainHost "/dev/sdb" "/dev/sdb" false st0).1
    = Ret (true, None) /\
  spec_RequiresFlush "/dev/sdb" "/dev/sdb" = false.
Proof. split; reflexivity. Qed.

Lemma RequiresFlush_policy_witness :
  RequiresFlush Scenario.plainHost "/dev/sdb" EmptyString false st0
    = (Ret (false, None), st0) /\
  (RequiresFlush Scenario.plainHost "/dev/sdb" "/dev/disk/by-id/luks-sdb" false st0).1
    = Ret (true, None).
Proof.
  pose proof (RequiresFlush_policy Scenario.plainHost "/dev/sdb" EmptyString false st0)
    as (H1 & _).
  pose proof (RequiresFlush_policy Scenario.plainHost "/dev/sdb"
                "/dev/disk/by-id/luks-sdb" false st0) as (_ & H2 & _).
  split.
  - apply H1. left. reflexivity.
  - apply (H2 ltac:(discriminate) eq_refl "/dev/sdb" "/dev/disk/by-id/luks-sdb" O O
              eq_refl eq_refl).
    right. discriminate.
Defined.

(** ** Write-readiness *)

Lemma Split_nonempty (s : string) (sep : ascii) : Split s sep <> [].
Proof.
  destruct s as [|c s]; simpl; [discriminate|].
  destruct (chr_eqb c sep); [discriminate|].
  destruct (Split s sep); discriminate.
Qed.

Lemma Split_snoc_sep (s : string) (sep : ascii) :
  Split (s +++ String sep EmptyString) sep = Split s sep ++ [EmptyString].
Proof.
  induction s as [|c s IH].
  - simpl. unfold chr_eqb. rewrite Ascii.eqb_refl. reflexivity.
  - rewrite sapp_cons. simpl. rewrite IH.
    destruct (chr_eqb c sep); [reflexivity|].
    pose proof (Split_nonempty s sep).
    destruct (Split s sep); [done | reflexivity].
Qed.

Lemma lookup_last_default {A} (l : list A) (d : A) :
  l <> [] -> l !! (length l - 1)%nat = Some (List.last l d).
Proof.
  induction l as [|x l IH]; [done|]. intros _.
  destruct l as [|y l]; [reflexivity|].
  simpl in *. rewrite Nat.sub_0_r in IH. apply IH. discriminate.
Qed.

Lemma lookup_head_default {A} (l : list A) (d : A) :
  l <> [] -> l !! O = Some (List.hd d l).
Proof. destruct l; [done | reflexivity]. Qed.

Lemma Atoi_error (s : string) (e : error) : Atoi s = inr e -> isAtoiError e.
Proof.
  unfold Atoi, isAtoiError. intros H. exists s.
  repeat case_match; simplify_eq; auto.
Qed.

Section WriteReadiness.
Context {W : Type} (os : OS W).

Lemma checkBlkdevRow_not_ro deviceWwn l (st : St W) :
  isReadOnlyRow deviceWwn l = false ->
  (hasNumericFlag l = true /\
   checkBlkdevRow os deviceWwn tt l st = (Ret (inl tt), st)) \/
  (exists e, isAtoiError e /\ hasNumericFlag l = false /\
             Atoi (List.last (Split l " ") EmptyString) = inr e /\
             checkBlkdevRow os deviceWwn tt l st = (Ret (inr (Some e)), st)).
Proof.
  unfold isReadOnlyRow, hasNumericFlag, checkBlkdevRow, at_index. intros Hro.
  pose proof (Split_nonempty l " ") as Hne.
  rewrite (lookup_last_default _ EmptyString Hne).
  rewrite (lookup_head_default _ EmptyString Hne).
  munfold. simpl.
  destruct (Atoi (List.last (Split l " ") EmptyString)) as [roi|e] eqn:Ha.
  - left. split; [reflexivity|]. rewrite Hro. reflexivity.
  - right. exists e. split; [by eapply Atoi_error|]. done.
Qed.

Lemma blkdev_rows_trailing_empty deviceWwn (rows : list string) (st : St W) :
  Forall (fun l => isReadOnlyRow deviceWwn l = false) rows ->
  exists e,
    isAtoiError e /\
    forRangeRet (rows ++ [EmptyString]) tt (checkBlkdevRow os deviceWwn) st
      = (Ret (inr (Some e)), st) /\
    (Forall (fun l => hasNumericFlag l = true) rows -> e = ErrSyntax "Atoi" EmptyString).
Proof.
  induction 1 as [|l rows Hl Hrows IH].
  - exists (ErrSyntax "Atoi" EmptyString). split; [by exists EmptyString; left|].
    split; [reflexivity | done].
  - simpl. munfold.
    destruct (checkBlkdevRow_not_ro deviceWwn l st Hl) as [[Hn Hc]|(e & He & Hn & _ & Hc)].
    + rewrite Hc. destruct IH as (e & He & Hrun & Hlast).
      exists e. split; [done|]. split; [exact Hrun|].
      intros Hall. apply Hlast. by inversion Hall.
    + rewrite Hc. exists e. split; [done|]. split; [reflexivity|].
      intros Hall. inversion Hall; congruence.
Qed.

End WriteReadiness.

(** ** Bounded retry *)

Section Retry.
Context {W : Type} (os : OS W) {C : Type}.
Variables (maxRetry interval : Z) (exec : Z -> C -> M W (bool * C)).

(** Fuel beyond the number of rounds left changes nothing. *)
Lemma retryLoop_fuel (k : nat) :
  forall fuel1 fuel2 tries c (st : St W),
    k = Z.to_nat (maxRetry - tries) -> (k <= fuel1)%nat -> (k <= fuel2)%nat ->
    retryLoop os fuel1 maxRetry interval exec tries c st
    = retryLoop os fuel2 maxRetry interval exec tries c st.
Proof.
  induction k as [|k IH]; intros fuel1 fuel2 tries c st Hk H1 H2.
  - destruct fuel1, fuel2; simpl; munfold; simpl;
      destruct (Z.geb_spec tries maxRetry); try lia; reflexivity.
  - destruct fuel1 as [|fuel1], fuel2 as [|fuel2]; try lia.
    simpl. munfold. simpl.
    destruct (tries >=? maxRetry); [reflexivity|].
    destruct (exec tries c _) as [[[[] c']|msg] st']; try reflexivity.
    apply IH; lia.
Qed.

(** When every attempt fails and leaves the same events behind, the loop
    ticks once per remaining round and once more before it gives up. *)
Lemma retryLoop_all_fail (evs : list Event) :
  (forall n c (st : St W), exists w',
      exec n c st = (Ret (false, c), mkSt w' (trace st ++ evs))) ->
  forall (k fuel : nat) tries c (st : St W),
    k = Z.to_nat (maxRetry - tries) -> (k <= fuel)%nat ->
    exists w',
      retryLoop os fuel maxRetry interval exec tries c st
      = (Ret (false, c),
         mkSt w' (trace st ++ concat (repeat (EvTick interval :: evs) k)
                           ++ [EvTick interval])).
Proof.
  intros Hexec. induction k as [|k IH]; intros fuel tries c st Hk Hfuel.
  - destruct fuel; simpl; munfold; simpl;
      (destruct (Z.geb_spec tries maxRetry); [|lia]); eauto.
  - destruct fuel as [|fuel]; [lia|]. simpl. munfold. simpl.
    destruct (Z.geb_spec tries maxRetry); [lia|].
    destruct (Hexec tries c (mkSt (os_tick os interval (world st))
                                  (trace st ++ [EvTick interval]))) as [w1 ->].
    simpl.
    destruct (IH fuel (tries + 1) c (mkSt w1 ((trace st ++ [EvTick interval]) ++ evs)))
      as [w2 ->]; [lia | lia |].
    exists w2. simpl. f_equal. f_equal.
    rewrite <- !app_assoc. reflexivity.
Qed.

Lemma RunWithRetry_all_fail (evs : list Event) :
  (forall n c (st : St W), exists w',
      exec n c st = (Ret (false, c), mkSt w' (trace st ++ evs))) ->
  forall c (st : St W),
    exists w',
      RunWithRetry os maxRetry interval exec c st
      = (Ret (false, c),
         mkSt w' (trace st ++ evs
                    ++ concat (repeat (EvTick interval :: evs) (Z.to_nat (maxRetry - 1)))
                    ++ [EvTick interval])).
Proof.
  intros Hexec c st. unfold RunWithRetry. munfold.
  destruct (Hexec 1 c st) as [w1 ->]. simpl.
  destruct (retryLoop_all_fail evs Hexec (Z.to_nat (maxRetry - 1)) (Z.to_nat maxRetry)
              1 c (mkSt w1 (trace st ++ evs))) as [w2 ->]; [reflexivity | lia |].
  exists w2. simpl. by rewrite <- !app_assoc.
Qed.

End Retry.

Section RetryTotal.
Context {W : Type} (os : OS W) {C : Type}.
Variables (maxRetry interval : Z) (exec : Z -> C -> M W (bool * C)).

(** The polling primitive returns whenever its callback does. *)
Lemma retryLoop_total :
  (forall n c (st : St W), exists b c' st', exec n c st = (Ret (b, c'), st')) ->
  forall fuel tries c (st : St W),
    exists b c' st',
      retryLoop os fuel maxRetry interval exec tries c st = (Ret (b, c'), st').
Proof.
  intros Hexec. induction fuel as [|fuel IH]; intros tries c st; simpl; munfold; simpl.
  - destruct (tries >=? maxRetry); [eauto|].
    destruct (Hexec tries c (mkSt (os_tick os interval (world st))
                                  (trace st ++ [EvTick interval])))
      as (b & c' & st' & ->). destruct b; eauto.
  - destruct (tries >=? maxRetry); [eauto|].
    destruct (Hexec tries c (mkSt (os_tick os interval (world st))
                                  (trace st ++ [EvTick interval])))
      as (b & c' & st' & ->). destruct b; eauto.
Qed.

Lemma RunWithRetry_total :
  (forall n c (st : St W), exists b c' st', exec n c st = (Ret (b, c'), st')) ->
  forall c (st : St W),
    exists b c' st',
      RunWithRetry os maxRetry interval exec c st = (Ret (b, c'), st').
Proof.
  intros Hexec c st. unfold RunWithRetry. munfold.
  destruct (Hexec 1 c st) as (b & c' & st' & ->).
  destruct b; [eauto|]. apply retryLoop_total. exact Hexec.
Qed.

End RetryTotal.

Section MultipathPath.
Context {W : Type} (os : OS W).

Lemma IsFileExists_total file (st : St W) :
  exists b st', IsFileExists os file st = (Ret b, st').
Proof.
  unfold IsFileExists. munfold.
  destruct (os_stat os file (world st)) as [[] w]; simpl; eauto.
Qed.

Lemma WaitForPath_total path (st : St W) :
  exists b st', WaitForPath os path st = (Ret b, st').
Proof.
  unfold WaitForPath.
  destruct (IsFileExists_total path st) as (b & st1 & H1).
  change (mbind ?k ?m) with (bind m k). unfold bind at 1. rewrite H1.
  destruct b; [unfold mret, M_ret, ret; eauto|].
  destruct (RunWithRetry_total os 3 1
              (fun (_ : Z) (_ : unit) => b ← IsFileExists os path; mret (b, tt))
              ltac:(intros n c st'; destruct (IsFileExists_total path st') as (b & st2 & H2);
                    munfold; rewrite H2; destruct c; eauto) tt st1)
    as (b & [] & st2 & H2).
  change (mbind ?k ?m) with (bind m k). unfold bind. rewrite H2.
  unfold mret, M_ret, ret. eauto.
Qed.

(** [FindMultipathDevicePath] returns one of its two paths, or the empty
    path together with the not-found error. *)
Lemma FindMultipathDevicePath_result deviceWwn (st : St W) :
  exists st',
    FindMultipathDevicePath os deviceWwn st
      = (Ret ("/dev/disk/by-id/dm-uuid-mpath-" +++ deviceWwn, None), st') \/
    FindMultipathDevicePath os deviceWwn st
      = (Ret ("/dev/mapper/" +++ deviceWwn, None), st') \/
    FindMultipathDevicePath os deviceWwn st
      = (Ret (EmptyString,
              Some (Errorf "couldn't find a valid multipath device path for %s")), st').
Proof.
  unfold FindMultipathDevicePath.
  destruct (WaitForPath_total ("/dev/disk/by-id/dm-uuid-mpath-" +++ deviceWwn) st)
    as (b1 & st1 & H1).
  munfold. rewrite H1.
  destruct b1; [exists st1; left; reflexivity|].
  destruct (WaitForPath_total ("/dev/mapper/" +++ deviceWwn) st1) as (b2 & st2 & H2).
  rewrite H2.
  exists st2. destruct b2; [right; left; reflexivity | right; right; reflexivity].
Qed.

Lemma FindMultipathDevicePath_found_nonempty deviceWwn (st st' : St W) path :
  FindMultipathDevicePath os deviceWwn st = (Ret (path, None), st') ->
  String.eqb path EmptyString = false.
Proof.
  intros H.
  destruct (FindMultipathDevicePath_result deviceWwn st) as (st1 & [H1|[H1|H1]]);
    rewrite H1 in H; inversion H; reflexivity.
Qed.

End MultipathPath.

Section WriteReadinessRetry.
Context {W : Type} (os : OS W).

Lemma WaitForRW_lsblk_error deviceWwn devicePath (st : St W) out e w' :
  os_combined_output os "lsblk" lsblkArgs (world st) = ((out, Some e), w') ->
  WaitForRW os deviceWwn devicePath st
  = (Ret (Some e), mkSt w' (trace st ++ waitRWEvents)).
Proof.
  intros H. unfold WaitForRW, Execute. munfold. simpl.
  change ["-o"; "NAME,RO"; "-l"; "-n"] with lsblkArgs. rewrite H. simpl.
  by rewrite <- app_assoc.
Qed.

Lemma WaitForRW_no_ro_row deviceWwn devicePath (st : St W) out body w' :
  os_combined_output os "lsblk" lsblkArgs (world st) = ((out, None), w') ->
  out = body +++ String nl EmptyString ->
  Forall (fun l => isReadOnlyRow deviceWwn l = false) (Split out nl) ->
  exists e,
    isAtoiError e /\
    WaitForRW os deviceWwn devicePath st
      = (Ret (Some e), mkSt w' (trace st ++ waitRWEvents)) /\
    (Forall (fun l => hasNumericFlag l = true) (Split body nl) ->
     e = ErrSyntax "Atoi" EmptyString).
Proof.
  intros H -> Hrows. rewrite Split_snoc_sep in Hrows.
  apply Forall_app in Hrows as [Hrows _].
  destruct (blkdev_rows_trailing_empty os deviceWwn (Split body nl)
              (mkSt w' (trace st ++ waitRWEvents)) Hrows) as (e & He & Hrun & Hlast).
  exists e. split; [done|]. split; [|done].
  unfold WaitForRW, Execute. munfold. simpl.
  change ["-o"; "NAME,RO"; "-l"; "-n"] with lsblkArgs. rewrite H. simpl.
  rewrite Split_snoc_sep, <- app_assoc.
  change ([EvLog "checking to see if %s is read-only"] ++ [EvExec "lsblk" lsblkArgs])
    with waitRWEvents.
  rewrite Hrun. reflexivity.
Qed.

Lemma waitRWAttempt_fails deviceWwn devicePath :
  lsblkTrailingNewline os deviceWwn ->
  forall (n : Z) (c : unit) (st : St W), exists w',
    waitRWAttempt os deviceWwn devicePath n c st
    = (Ret (false, c), mkSt w' (trace st ++ waitRWEvents)).
Proof.
  intros Hhost n [] st. unfold waitRWAttempt. munfold.
  destruct (os_combined_output os "lsblk" lsblkArgs (world st)) as [[out [e|]] w'] eqn:Hls.
  - rewrite (WaitForRW_lsblk_error _ _ _ _ _ _ Hls). eauto.
  - destruct (Hhost _ _ _ Hls) as [[body Hbody] Hrows].
    destruct (WaitForRW_no_ro_row deviceWwn devicePath st out body w' Hls Hbody Hrows)
      as (e & _ & -> & _). eauto.
Qed.

(** C10: when the [lsblk] listing ends with a newline and has no
    read-only row for the WWN, [WaitForRW] returns the error of parsing a
    flag as an integer (that of the empty last line when the rows before
    it have numeric flags), never nil; on a host where every listing is
    like that, the five write-readiness attempts of [discoverMPathDevice]
    all fail and the retry is exhausted, after which the device is
    returned all the same. *)
Theorem WaitForRW_trailing_newline deviceWwn :
  (forall devicePath (st : St W) out body w',
     os_combined_output os "lsblk" lsblkArgs (world st) = ((out, None), w') ->
     out = body +++ String nl EmptyString ->
     Forall (fun l => isReadOnlyRow deviceWwn l = false) (Split out nl) ->
     exists e,
       isAtoiError e /\
       WaitForRW os deviceWwn devicePath st
         = (Ret (Some e), mkSt w' (trace st ++ waitRWEvents)) /\
       (Forall (fun l => hasNumericFlag l = true) (Split body nl) ->
        e = ErrSyntax "Atoi" EmptyString)) /\
  (lsblkTrailingNewline os deviceWwn ->
   forall devicePath (st : St W), exists w',
     RunWithRetry os 5 1 (waitRWAttempt os deviceWwn devicePath) tt st
     = (Ret (false, tt),
        mkSt w' (trace st ++ waitRWEvents
                   ++ concat (repeat (EvTick 1 :: waitRWEvents) 4)
                   ++ [EvTick 1]))) /\
  (lsblkTrailingNewline os deviceWwn ->
   forall connProperties deviceName path (st st1 : St W),
     accessModeNotRO connProperties = true ->
     FindMultipathDevicePath os deviceWwn st = (Ret (path, None), st1) ->
     exists w',
       discoverMPathDevice os deviceWwn connProperties deviceName st
       = (Ret (path, deviceWwn, None),
          mkSt w' (trace st1 ++ waitRWEvents
                     ++ concat (repeat (EvTick 1 :: waitRWEvents) 4)
                     ++ [EvTick 1]
                     ++ [EvLog "block device %s is still read-only. Continuing anyway."]))).
Proof.
  split; [intros; by eapply WaitForRW_no_ro_row|]. split.
  - intros Hhost devicePath st.
    apply (RunWithRetry_all_fail os 5 1 _ waitRWEvents
             (waitRWAttempt_fails deviceWwn devicePath Hhost)).
  - intros Hhost cp deviceName path st st1 Ham Hfind.
    pose proof (FindMultipathDevicePath_found_nonempty os _ _ _ _ Hfind) as Hne.
    unfold discoverMPathDevice. munfold. rewrite Hfind, Hne, Ham. simpl.
    destruct (RunWithRetry_all_fail os 5 1 _ waitRWEvents
                (waitRWAttempt_fails deviceWwn path Hhost) tt st1) as [w' ->].
    exists w'. simpl. f_equal. f_equal. by rewrite <- !app_assoc.
Qed.

End WriteReadinessRetry.

Lemma lsblkOut_rows :
  Split Scenario.lsblkOut nl
  = [ "sda                                       0";
      "sdb                                       0";
      "3600508b4000156d700012000000b0000 (dm-1)  0";
      EmptyString ].
Proof. vm_compute. reflexivity. Qed.

Lemma lsblkOut_no_ro_row :
  Forall (fun l => isReadOnlyRow "3600508b4000156d700012000000b0000" l = false)
         (Split Scenario.lsblkOut nl).
Proof.
  rewrite lsblkOut_rows.
  repeat (apply Forall_cons_2; [vm_compute; reflexivity|]).
  apply Forall_nil_2.
Qed.

Lemma mpathHost_lsblk :
  lsblkTrailingNewline Scenario.mpathHost "3600508b4000156d700012000000b0000".
Proof.
  intros w out w' H.
  assert (out = Scenario.lsblkOut) as -> by (vm_compute in H; by inversion H).
  split.
  - exists Scenario.lsblkBody. reflexivity.
  - exact lsblkOut_no_ro_row.
Qed.

Lemma WaitForRW_trailing_newline_witness :
  (exists e,
     isAtoiError e /\
     WaitForRW Scenario.mpathHost "3600508b4000156d700012000000b0000"
               Scenario.mpathLink st0
       = (Ret (Some e), mkSt O waitRWEvents)) /\
  (exists w',
     discoverMPathDevice Scenario.mpathHost "3600508b4000156d700012000000b0000"
                         Scenario.descriptorRW "/dev/sdb" st0
     = (Ret (Scenario.mpathLink, "3600508b4000156d700012000000b0000", None),
        mkSt w' ([EvStat Scenario.mpathLink] ++ waitRWEvents
                   ++ concat (repeat (EvTick 1 :: waitRWEvents) 4)
                   ++ [EvTick 1]
                   ++ [EvLog "block device %s is still read-only. Continuing anyway."]))).
Proof.
  pose proof (WaitForRW_trailing_newline Scenario.mpathHost
                "3600508b4000156d700012000000b0000") as (H1 & _ & H3).
  split.
  - destruct (H1 Scenario.mpathLink st0 Scenario.lsblkOut Scenario.lsblkBody
                O eq_refl eq_refl)
      as (e & He & Hrun & _).
    + exact lsblkOut_no_ro_row.
    + exists e. split; [exact He | exact Hrun].
  - apply (H3 mpathHost_lsblk Scenario.descriptorRW "/dev/sdb" Scenario.mpathLink
              st0 (mkSt O [EvStat Scenario.mpathLink]) eq_refl eq_refl).
Defined.

(** ** Parsing the [multipath -l] listing *)

Lemma noChar_app (c : ascii) (a b : string) :
  noChar c (a +++ b) = noChar c a && noChar c b.
Proof.
  induction a as [|d a IH]; [reflexivity|].
  rewrite sapp_cons. simpl. rewrite IH. by rewrite andb_assoc.
Qed.

Lemma Split_no_sep (s : string) (sep : ascii) :
  noChar sep s = true -> Split s sep = [s].
Proof.
  induction s as [|c s IH]; simpl; [reflexivity|].
  intros [Hc Hs]%andb_prop. apply negb_true_iff in Hc. rewrite Hc, (IH Hs).
  reflexivity.
Qed.

Lemma Split_app_sep (a b : string) (sep : ascii) :
  noChar sep a = true -> Split (a +++ String sep b) sep = a :: Split b sep.
Proof.
  induction a as [|c a IH]; intros Ha.
  - simpl. unfold chr_eqb. by rewrite Ascii.eqb_refl.
  - simpl in Ha. apply andb_prop in Ha as [Hc Ha]. apply negb_true_iff in Hc.
    rewrite sapp_cons. simpl. rewrite Hc, (IH Ha). reflexivity.
Qed.

Lemma trimLeftFunc_app_all (f : ascii -> bool) (a b : string) :
  trimLeftFunc f a = EmptyString -> trimLeftFunc f (a +++ b) = trimLeftFunc f b.
Proof.
  induction a as [|c a IH]; [reflexivity|].
  rewrite sapp_cons. simpl. destruct (f c); [exact IH | discriminate].
Qed.

Lemma afterFirst_app_none (c : ascii) (a b : string) :
  noChar c a = true -> afterFirst c (a +++ b) = afterFirst c b.
Proof.
  induction a as [|d a IH]; [reflexivity|].
  intros Ha. simpl in Ha. apply andb_prop in Ha as [Hd Ha].
  apply negb_true_iff in Hd.
  rewrite sapp_cons. simpl. rewrite Hd. by apply IH.
Qed.

Lemma afterFirst_none (c : ascii) (a : string) :
  noChar c a = true -> afterFirst c a = None.
Proof.
  induction a as [|d a IH]; [reflexivity|].
  simpl. intros [Hd Ha]%andb_prop. apply negb_true_iff in Hd.
  rewrite Hd. by apply IH.
Qed.

Lemma beforeLast_none (c : ascii) (a : string) :
  noChar c a = true -> beforeLast c a = None.
Proof.
  induction a as [|d a IH]; [reflexivity|].
  simpl. intros [Hd Ha]%andb_prop. apply negb_true_iff in Hd.
  by rewrite (IH Ha), Hd.
Qed.

Lemma beforeLast_app_last (c : ascii) (a b : string) :
  noChar c b = true -> beforeLast c (a +++ String c b) = Some a.
Proof.
  intros Hb. induction a as [|d a IH].
  - simpl. rewrite (beforeLast_none _ _ Hb). unfold chr_eqb.
    by rewrite Ascii.eqb_refl.
  - rewrite sapp_cons. simpl. by rewrite IH.
Qed.

Lemma isMultipathAction_chars (a : string) :
  isMultipathAction a = true -> noChar " " a = true /\ noChar "(" a = true.
Proof.
  unfold isMultipathAction, MultipathDeviceActions. simpl. intros H.
  repeat (apply orb_prop in H as [H|H];
          [apply String.eqb_eq in H; subst; by split|]).
  discriminate.
Qed.

Lemma afterFirst_app_hit (c : ascii) (a b : string) :
  noChar c a = true -> afterFirst c (a +++ String c b) = Some b.
Proof.
  intros Ha. rewrite (afterFirst_app_none _ _ _ Ha). simpl.
  unfold chr_eqb. by rewrite Ascii.eqb_refl.
Qed.

Lemma header_tokens action name wwid rest :
  wfHeader action name wwid rest = true ->
  exists tl,
    Split (headerLine action name wwid rest) " "
    = match action with
      | Some a => a :: name :: tl
      | None => name :: tl
      end.
Proof.
  unfold wfHeader, headerLine. intros H.
  repeat (apply andb_prop in H as [H ?]).
  assert (exists t, match wwid with
                    | Some w => " (" +++ w +++ ")"
                    | None => EmptyString
                    end +++ " " +++ rest = String " " t) as [t Ht]
    by (destruct wwid; eexists; reflexivity).
  rewrite Ht.
  destruct action as [a|].
  - apply isMultipathAction_chars in H as [Ha _].
    rewrite sapp_assoc. change (" " +++ ?x) with (String " " x).
    rewrite (Split_app_sep a _ " " Ha), (Split_app_sep name _ " ") by done.
    eauto.
  - rewrite sapp_nil_l, (Split_app_sep name _ " ") by done. eauto.
Qed.

Lemma header_wwid action name wwid rest :
  wfHeader action name wwid rest = true ->
  MultipathWWIDRegex_find (headerLine action name wwid rest) = wwid.
Proof.
  unfold wfHeader, headerLine. intros H.
  repeat (apply andb_prop in H as [H ?]).
  assert (Hact : noChar "(" match action with
                            | Some a => a +++ " "
                            | None => EmptyString
                            end = true).
  { destruct action as [a|]; [|reflexivity].
    apply isMultipathAction_chars in H as [_ Ha].
    by rewrite noChar_app, Ha. }
  unfold MultipathWWIDRegex_find.
  destruct wwid as [w|].
  - replace (match action with Some a => a +++ " " | None => EmptyString end
             +++ name +++ (" (" +++ w +++ ")") +++ " " +++ rest)
      with ((match action with Some a => a +++ " " | None => EmptyString end
             +++ name +++ " ") +++ String "(" (w +++ String ")" (" " +++ rest))).
    2:{ rewrite !sapp_assoc. reflexivity. }
    rewrite afterFirst_app_hit.
    2:{ rewrite !noChar_app. rewrite Hact. simpl. by rewrite andb_true_r. }
    simpl. rewrite beforeLast_app_last by (simpl; done). simpl.
    by destruct (String.eqb w EmptyString).
  - rewrite afterFirst_none; [reflexivity|].
    rewrite !noChar_app, Hact. simpl.
    repeat (apply andb_true_intro; split); done.
Qed.

Section MultipathListing.
Context {W : Type} (os : OS W).

Lemma trimLeftFunc_head (f : ascii -> bool) (a b : string) (c : ascii) (h : string) :
  a = String c h -> f c = false -> trimLeftFunc f (a +++ b) = a +++ b.
Proof. intros -> Hc. rewrite sapp_cons. simpl. by rewrite Hc. Qed.

Lemma wfLeg_inv (g : Leg) :
  wfLeg g = true ->
  trimLeftFunc (fun c => inCutset c treeChars) (leg_indent g) = EmptyString /\
  (exists c h, leg_host g = String c h /\ inCutset c treeChars = false) /\
  Split (legAddress g) ":" = [leg_host g; leg_channel g; leg_id g; leg_lun g] /\
  noChar " " (legAddress g) = true /\
  noChar " " (leg_dev g) = true /\
  Contains (legLine g) "policy" = false.
Proof.
  unfold wfLeg. intros H. repeat (apply andb_prop in H as [H ?]).
  apply String.eqb_eq in H.
  split; [exact H|]. split.
  { destruct (leg_host g) as [|c h]; [discriminate|].
    exists c, h. split; [reflexivity|]. by apply negb_true_iff. }
  split.
  { unfold legAddress.
    change (leg_host g +++ ":" +++ leg_channel g +++ ":" +++ leg_id g +++ ":" +++ leg_lun g)
      with (leg_host g +++ String ":" (leg_channel g +++ String ":"
              (leg_id g +++ String ":" (leg_lun g)))).
    by rewrite !Split_app_sep, Split_no_sep. }
  split.
  { unfold legAddress. rewrite !noChar_app.
    change (noChar " " ":") with true.
    repeat (apply andb_true_intro; split); done. }
  split; [done|]. by apply negb_true_iff.
Qed.

Lemma parseDeviceLine_leg (g : Leg) (st : St W) :
  wfLeg g = true -> parseDeviceLine (legLine g) st = (Ret (legDevice g), st).
Proof.
  intros (Hind & (c & h & Hhost & Hcut) & Haddr & Hsp & Hdev & _)%wfLeg_inv.
  unfold parseDeviceLine, TrimLeft. change " |-`" with treeChars.
  assert (Hline : trimLeftFunc (fun c0 => inCutset c0 treeChars) (legLine g)
                  = legAddress g +++ String " " (leg_dev g +++ String " " (leg_rest g))).
  { unfold legLine. rewrite (trimLeftFunc_app_all _ _ _ Hind).
    change (legAddress g +++ " " +++ leg_dev g +++ " " +++ leg_rest g)
      with (legAddress g +++ String " " (leg_dev g +++ String " " (leg_rest g))).
    apply (trimLeftFunc_head _ _ _ c
             (h +++ ":" +++ leg_channel g +++ ":" +++ leg_id g +++ ":" +++ leg_lun g));
      [|exact Hcut].
    unfold legAddress. rewrite Hhost. reflexivity. }
  rewrite Hline, !Split_app_sep by done.
  unfold at_index. munfold. simpl. rewrite Haddr. reflexivity.
Qed.

Lemma collectDeviceLines_rows (rows : list Row) :
  Forall (fun r => wfRow r = true) rows ->
  forall acc (st : St W),
    forRange (map rowLine rows) acc collectDeviceLine st
    = (Ret (acc ++ map legDevice (rowLegs rows)), st).
Proof.
  induction 1 as [|r rows Hr Hrows IH]; intros acc st; simpl.
  - by rewrite app_nil_r.
  - munfold. unfold collectDeviceLine at 1.
    destruct r as [g|l]; simpl in *.
    + assert (Hp : Contains (legLine g) "policy" = false)
        by (by apply wfLeg_inv in Hr as (_ & _ & _ & _ & _ & ?)).
      rewrite Hp. munfold. rewrite (parseDeviceLine_leg g st Hr).
      rewrite IH, <- app_assoc. reflexivity.
    + rewrite Hr. munfold. by rewrite IH.
Qed.

End MultipathListing.

Section MultipathListingParse.
Context {W : Type} (os : OS W).

Lemma FindMultipathDevice_block deviceName (st : St W) out w1 w2
    action name wwid rest l1 l2 rows :
  os_combined_output os "multipath" ["-l"; deviceName] (world st) = ((out, None), w1) ->
  multipathLines out = headerLine action name wwid rest :: l1 :: l2 :: map rowLine rows ->
  wfHeader action name wwid rest = true ->
  Forall (fun r => wfRow r = true) rows ->
  os_stat os ("/dev/mapper/" +++ name) w1 = (StatOk, w2) ->
  FindMultipathDevice os deviceName st
  = (Ret (Some (multipathInfo name wwid (rowLegs rows)), None),
     mkSt w2 (trace st ++ [EvExec "multipath" ["-l"; deviceName];
                           EvStat ("/dev/mapper/" +++ name)])).
Proof.
  intros Hexec Hlines Hwf Hrows Hstat.
  unfold FindMultipathDevice, Execute. munfold. simpl.
  rewrite Hexec. simpl. rewrite Hlines.
  destruct (header_tokens _ _ _ _ Hwf) as [tl Htl]. rewrite Htl.
  rewrite (header_wwid _ _ _ _ Hwf).
  pose proof Hwf as Hact. unfold wfHeader in Hact.
  repeat (apply andb_prop in Hact as [Hact ?]).
  pose proof (collectDeviceLines_rows rows Hrows []
                (mkSt w2 ((trace st ++ [EvExec "multipath" ["-l"; deviceName]])
                            ++ [EvStat ("/dev/mapper/" +++ name)]))) as Hloop.
  unfold IsFileExists, at_index. munfold.
  destruct action as [a|]; simpl.
  - rewrite Hact. simpl. rewrite Hstat. simpl.
    change (list.drop 0 (map rowLine rows)) with (map rowLine rows).
    rewrite Hloop. simpl.
    rewrite <- app_assoc. destruct wwid; reflexivity.
  - apply negb_true_iff in Hact. rewrite Hact. simpl. rewrite Hstat. simpl.
    change (list.drop 0 (map rowLine rows)) with (map rowLine rows).
    rewrite Hloop. simpl.
    rewrite <- app_assoc. destruct wwid; reflexivity.
Qed.

Lemma FindMultipathDevice_no_lines deviceName (st : St W) out w1 :
  os_combined_output os "multipath" ["-l"; deviceName] (world st) = ((out, None), w1) ->
  multipathLines out = [] ->
  FindMultipathDevice os deviceName st
  = (Ret (None, None), mkSt w1 (trace st ++ [EvExec "multipath" ["-l"; deviceName]])).
Proof.
  intros Hexec Hlines. unfold FindMultipathDevice, Execute. munfold. simpl.
  rewrite Hexec. simpl. rewrite Hlines. reflexivity.
Qed.

(** C9: from a [multipath -l] block whose first line carries an action
    keyword (or none), the mapper name and possibly a WWID in parentheses,
    followed by two lines and then by member legs and policy lines,
    [FindMultipathDevice] recovers the mapper device and name (the action
    keyword skipped), the WWID from the parenthesized group or else the
    mapper name, and one record per leg with host, channel, id and lun
    split from the first token and the leaf device from the second; an
    output with no line left after the noise is dropped (the empty output
    in particular) gives nil and no error. *)
Theorem FindMultipathDevice_parses deviceName (st : St W) out w1 :
  os_combined_output os "multipath" ["-l"; deviceName] (world st) = ((out, None), w1) ->
  (forall action name wwid rest l1 l2 rows w2,
     multipathLines out = headerLine action name wwid rest :: l1 :: l2 :: map rowLine rows ->
     wfHeader action name wwid rest = true ->
     Forall (fun r => wfRow r = true) rows ->
     os_stat os ("/dev/mapper/" +++ name) w1 = (StatOk, w2) ->
     FindMultipathDevice os deviceName st
     = (Ret (Some (multipathInfo name wwid (rowLegs rows)), None),
        mkSt w2 (trace st ++ [EvExec "multipath" ["-l"; deviceName];
                              EvStat ("/dev/mapper/" +++ name)])) /\
     index (multipathInfo name wwid (rowLegs rows)) "devices"
       = VMultipathDevices (map legDevice (rowLegs rows)) /\
     length (map legDevice (rowLegs rows)) = length (rowLegs rows)) /\
  (out = EmptyString \/ multipathLines out = [] ->
   FindMultipathDevice os deviceName st
   = (Ret (None, None), mkSt w1 (trace st ++ [EvExec "multipath" ["-l"; deviceName]]))).
Proof.
  intros Hexec. split.
  - intros action name wwid rest l1 l2 rows w2 Hlines Hwf Hrows Hstat.
    split; [by eapply FindMultipathDevice_block|].
    split; [reflexivity | apply length_map].
  - intros Hout. apply (FindMultipathDevice_no_lines _ _ out); [done|].
    destruct Hout as [->|?]; [reflexivity | done].
Qed.

End MultipathListingParse.

Lemma FindMultipathDevice_parses_witness :
  FindMultipathDevice Scenario.mpathListHost "/dev/sde" st0
  = (Ret (Some (multipathInfo "mpathb" (Some "36005076da00638089c000000000004d5")
                  (rowLegs Scenario.mpathLegs)), None),
     mkSt O [EvExec "multipath" ["-l"; "/dev/sde"]; EvStat "/dev/mapper/mpathb"]) /\
  length (map legDevice (rowLegs Scenario.mpathLegs)) = 3%nat /\
  FindMultipathDevice Scenario.plainHost "/dev/sdb" st0
  = (Ret (None, None), mkSt O [EvExec "multipath" ["-l"; "/dev/sdb"]]).
Proof.
  pose proof (FindMultipathDevice_parses Scenario.mpathListHost "/dev/sde" st0
                Scenario.mpathOut O eq_refl) as [H1 _].
  pose proof (FindMultipathDevice_parses Scenario.plainHost "/dev/sdb" st0
                EmptyString O eq_refl) as [_ H2].
  destruct (H1 (Some "reload:") "mpathb" (Some "36005076da00638089c000000000004d5")
               "dm-2 IBM,2145"
               "size=954M features='1 queue_if_no_path' hwhandler='0' wp=rw"
               "|-+- policy='round-robin 0' prio=-1 status=active"
               Scenario.mpathLegs O) as (Hrun & _ & Hlen).
  - vm_compute. reflexivity.
  - vm_compute. reflexivity.
  - repeat (apply Forall_cons_2; [vm_compute; reflexivity|]). apply Forall_nil_2.
  - reflexivity.
  - split; [exact Hrun|]. split; [exact Hlen|]. apply H2. left. reflexivity.
Defined.

(** ** What a run adds to the trace *)

Section Quiet.
Context {W : Type}.
Variable P : Event -> bool.

Lemma quiet_ret {A} (a : A) : quiet (W:=W) P (mret a).
Proof. intros st. exists []. by rewrite app_nil_r. Qed.

Lemma quiet_panic {A} msg : quiet (W:=W) P (panic msg : M W A).
Proof. intros st. exists []. by rewrite app_nil_r. Qed.

Lemma quiet_emit e : P e = true -> quiet (W:=W) P (emit e).
Proof. intros He st. exists [e]. simpl. by rewrite He. Qed.

Lemma quiet_log f : P (EvLog f) = true -> quiet (W:=W) P (log_printf f).
Proof. apply quiet_emit. Qed.

Lemma quiet_ask {A} e (q : W -> A * W) : P e = true -> quiet (W:=W) P (ask e q).
Proof.
  intros He st. exists [e]. unfold ask. destruct (q (world st)). simpl.
  by rewrite He.
Qed.

Lemma quiet_bind {A B} (m : M W A) (k : A -> M W B) :
  quiet (W:=W) P m -> (forall a, quiet (W:=W) P (k a)) -> quiet (W:=W) P (m ≫= k).
Proof.
  intros Hm Hk st. munfold. destruct (Hm st) as (evs1 & H1 & HP1).
  destruct (m st) as [[a|msg] st1]; simpl in *.
  - destruct (Hk a st1) as (evs2 & H2 & HP2).
    exists (evs1 ++ evs2). rewrite H2, H1, <- app_assoc, forallb_app, HP1, HP2. done.
  - by exists evs1.
Qed.

Lemma quiet_forRange {A S} (l : list A) (body : S -> A -> M W S) :
  (forall s a, quiet (W:=W) P (body s a)) -> forall s, quiet (W:=W) P (forRange l s body).
Proof.
  intros Hb. induction l as [|x l IH]; intros s; simpl.
  - apply quiet_ret.
  - apply quiet_bind; [apply Hb | exact IH].
Qed.

Lemma quiet_forRangeRet {A S R} (l : list A) (body : S -> A -> M W (S + R)) :
  (forall s a, quiet (W:=W) P (body s a)) -> forall s, quiet (W:=W) P (forRangeRet l s body).
Proof.
  intros Hb. induction l as [|x l IH]; intros s; simpl.
  - apply quiet_ret.
  - apply quiet_bind; [apply Hb|]. intros [s'|r]; [apply IH | apply quiet_ret].
Qed.

Lemma quiet_at_index {A} (l : list A) i : quiet (W:=W) P (at_index l i).
Proof. unfold at_index. destruct (l !! i); [apply quiet_ret | apply quiet_panic]. Qed.

(** The events of a quiet run, given its end state. *)
Lemma quiet_run {A} (m : M W A) (st st' : St W) r :
  quiet (W:=W) P m -> m st = (r, st') ->
  exists evs, trace st' = trace st ++ evs /\ forallb P evs = true.
Proof. intros Hm Hrun. specialize (Hm st). by rewrite Hrun in Hm. Qed.

End Quiet.

Ltac quiet_step :=
  first
    [ apply quiet_ret
    | apply quiet_panic
    | apply quiet_log; reflexivity
    | apply quiet_emit; reflexivity
    | apply quiet_ask; reflexivity
    | apply quiet_at_index
    | apply quiet_bind; [|intros]
    | apply quiet_forRange; intros
    | apply quiet_forRangeRet; intros
    | match goal with
      | |- quiet _ (match ?x with _ => _ end) => destruct x
      | |- quiet _ (if ?b then _ else _) => destruct b
      | |- quiet _ (let '(_, _) := ?x in _) => destruct x
      end ].

Section QuietHost.
Context {W : Type} (os : OS W).

Lemma quiet_Execute name arg : quiet plainEvent (Execute os name arg).
Proof. unfold Execute. quiet_step. Qed.

Lemma quiet_IsFileExists file : quiet plainEvent (IsFileExists os file).
Proof. unfold IsFileExists. repeat quiet_step. Qed.

Lemma quiet_CheckValidDevice device : quiet plainEvent (CheckValidDevice os device).
Proof.
  unfold CheckValidDevice. apply quiet_bind; [apply quiet_Execute|].
  intros [out [e|]]; repeat quiet_step.
Qed.

Lemma quiet_EchoSCSICommand path content :
  quiet plainEvent (EchoSCSICommand os path content).
Proof.
  unfold EchoSCSICommand. apply quiet_bind; [apply quiet_Execute|].
  intros [out err]. quiet_step.
Qed.

Lemma quiet_scanHostDevices hostDevices :
  quiet plainEvent (scanHostDevices os hostDevices).
Proof.
  unfold scanHostDevices. apply quiet_forRangeRet. intros [] dev.
  apply quiet_bind; [apply quiet_IsFileExists|]. intros ex.
  apply quiet_bind.
  { destruct ex; [apply quiet_CheckValidDevice | quiet_step]. }
  intros valid. destruct valid; [|quiet_step].
  apply quiet_bind; [quiet_step|]. intros [deviceName err]. quiet_step.
Qed.

Lemma quiet_getHBAChannelSCSITargetLun hba connectionProperties :
  quiet plainEvent (getHBAChannelSCSITargetLun os hba connectionProperties).
Proof.
  unfold getHBAChannelSCSITargetLun.
  apply quiet_bind; [quiet_step|]. intros _.
  apply quiet_bind; [repeat quiet_step|]. intros targets.
  apply quiet_bind; [repeat quiet_step|]. intros targets'.
  apply quiet_forRange. intros [ctls lunNotFound] t.
  apply quiet_bind; [apply quiet_Execute|]. intros [out err].
  apply quiet_bind; [repeat quiet_step|]. intros lnf.
  apply quiet_bind; [|intros; quiet_step].
  apply quiet_forRange. intros ctls' line. repeat quiet_step.
Qed.

Lemma quiet_scanProcess process : quiet plainEvent (scanProcess os process).
Proof.
  unfold scanProcess. apply quiet_forRange. intros [] [hba ctls].
  apply quiet_forRange. intros [] c.
  do 3 (apply quiet_bind; [apply quiet_at_index|]; intros ?).
  apply quiet_bind; [quiet_step|]. intros _.
  apply quiet_bind; [apply quiet_EchoSCSICommand|]. intros [e|]; quiet_step.
Qed.

End QuietHost.

(** ** The retry loop of [ConnectVolume] *)

Lemma rescanCount_app a b : rescanCount (a ++ b) = (rescanCount a + rescanCount b)%nat.
Proof. unfold rescanCount. by rewrite List.filter_app, length_app. Qed.

Lemma tickCount_app a b : tickCount (a ++ b) = (tickCount a + tickCount b)%nat.
Proof. unfold tickCount. by rewrite List.filter_app, length_app. Qed.

Lemma plain_counts evs :
  forallb plainEvent evs = true -> rescanCount evs = O /\ tickCount evs = O.
Proof.
  unfold rescanCount, tickCount, plainEvent.
  induction evs as [|e evs IH]; simpl; [done|].
  intros [[Hr Ht]%andb_prop Hrest]%andb_prop.
  apply negb_true_iff in Hr, Ht. rewrite Hr, Ht. by apply IH.
Qed.

Section ConnectPolling.
Context {W : Type} (os : OS W).

Lemma emit_then_quiet {A} (P : Event -> bool) (e : Event) (k : unit -> M W A) :
  quiet P (k tt) ->
  forall st, exists evs,
    trace ((emit e ≫= k) st).2 = trace st ++ e :: evs /\ forallb P evs = true.
Proof.
  intros Hk st. munfold. simpl.
  destruct (Hk (mkSt (world st) (trace st ++ [e]))) as (evs & H & HP).
  exists evs. rewrite H. simpl. by rewrite <- app_assoc.
Qed.

(** A call of [RescanHosts] logs its start once and neither starts
    another rescan nor waits. *)
Lemma RescanHosts_events hbas connProperties (st : St W) :
  exists evs,
    trace (RescanHosts os hbas connProperties st).2
      = trace st ++ EvLog rescanLog :: evs /\
    forallb plainEvent evs = true.
Proof.
  unfold RescanHosts, log_printf. apply emit_then_quiet.
  apply quiet_bind; [repeat quiet_step|]. intros _.
  apply quiet_bind; [repeat quiet_step|]. intros broadScan.
  apply quiet_bind; [|intros; quiet_step].
  apply quiet_forRange. intros [process skipped] hba.
  apply quiet_bind; [apply quiet_getHBAChannelSCSITargetLun|].
  intros [ctls lunsWildcards].
  apply quiet_bind; [repeat quiet_step|]. intros [process' skipped'].
  apply quiet_bind; [apply quiet_scanProcess|]. intros _. quiet_step.
Qed.

Variables (hbas : list HBA) (connProperties : gmap string value)
          (hostDevices : list string).

(** A failed attempt is a scan that finds nothing followed by one rescan. *)
Lemma poll_failed n c (st st' : St W) c' :
  pollHostDevices os hbas connProperties hostDevices n c st = (Ret (false, c'), st') ->
  c' = c /\
  exists evs, trace st' = trace st ++ evs /\
              rescanCount evs = 1%nat /\ tickCount evs = O.
Proof.
  unfold pollHostDevices. munfold.
  destruct (scanHostDevices os hostDevices st) as [[[[]|found]|msg] st1] eqn:Hscan;
    try discriminate.
  destruct (quiet_run plainEvent _ _ _ _ (quiet_scanHostDevices os hostDevices) Hscan)
    as (evs1 & H1 & HP1).
  destruct (RescanHosts_events hbas connProperties st1) as (evs2 & H2 & HP2).
  destruct (RescanHosts os hbas connProperties st1) as [[[]|msg] st2]; simpl in *;
    [|discriminate].
  intros [= <- <-]. split; [reflexivity|].
  exists (evs1 ++ EvLog rescanLog :: evs2).
  apply plain_counts in HP1 as [Hr1 Ht1]. apply plain_counts in HP2 as [Hr2 Ht2].
  split; [by rewrite H2, H1, <- app_assoc|].
  rewrite rescanCount_app, tickCount_app.
  change (EvLog rescanLog :: evs2) with ([EvLog rescanLog] ++ evs2).
  rewrite rescanCount_app, tickCount_app, Hr1, Ht1, Hr2, Ht2. done.
Qed.

(** A successful attempt is a scan that finds a candidate, and nothing
    else. *)
Lemma poll_hit n c (st st' : St W) found :
  pollHostDevices os hbas connProperties hostDevices n c st = (Ret (true, found), st') ->
  scanHostDevices os hostDevices st = (Ret (inr found), st') /\
  exists evs, trace st' = trace st ++ evs /\
              rescanCount evs = O /\ tickCount evs = O.
Proof.
  unfold pollHostDevices. munfold.
  destruct (scanHostDevices os hostDevices st) as [[[[]|found']|msg] st1] eqn:Hscan;
    try discriminate.
  - destruct (RescanHosts os hbas connProperties st1) as [[[]|msg] st2];
      discriminate.
  - intros [= <- <-]. split; [reflexivity|].
    destruct (quiet_run plainEvent _ _ _ _ (quiet_scanHostDevices os hostDevices) Hscan)
      as (evs1 & H1 & HP1).
    exists evs1. by apply plain_counts in HP1 as [? ?].
Qed.

Lemma poll_scan_hit n c (st st' : St W) found :
  scanHostDevices os hostDevices st = (Ret (inr found), st') ->
  pollHostDevices os hbas connProperties hostDevices n c st = (Ret (true, found), st').
Proof. intros H. unfold pollHostDevices. munfold. by rewrite H. Qed.

End ConnectPolling.

Section RetryCounts.
Context {W : Type} (os : OS W) {C : Type}.
Variables (maxRetry interval : Z) (exec : Z -> C -> M W (bool * C)).

Hypothesis exec_failed :
  forall n c (st st' : St W) c',
    exec n c st = (Ret (false, c'), st') ->
    c' = c /\
    exists evs, trace st' = trace st ++ evs /\
                rescanCount evs = 1%nat /\ tickCount evs = O.

Hypothesis exec_hit :
  forall n c (st st' : St W) c',
    exec n c st = (Ret (true, c'), st') ->
    exists evs, trace st' = trace st ++ evs /\
                rescanCount evs = O /\ tickCount evs = O.

(** In the loop every round waits first; a round that fails rescans
    once. *)
Lemma retryLoop_counts (k : nat) :
  forall fuel tries c (st st' : St W) b c',
    k = Z.to_nat (maxRetry - tries) -> (k <= fuel)%nat ->
    retryLoop os fuel maxRetry interval exec tries c st = (Ret (b, c'), st') ->
    exists evs,
      trace st' = trace st ++ evs /\
      tickCount evs = S (rescanCount evs) /\
      (b = true -> (rescanCount evs < k)%nat) /\
      (b = false -> rescanCount evs = k /\ c' = c).
Proof.
  induction k as [|k IH]; intros fuel tries c st st' b c' Hk Hfuel.
  - destruct fuel; simpl; munfold; simpl;
      (destruct (Z.geb_spec tries maxRetry); [|lia]);
      intros [= <- <- <-]; exists [EvTick interval]; simpl; repeat split; done.
  - destruct fuel as [|fuel]; [lia|]. simpl. munfold. simpl.
    destruct (Z.geb_spec tries maxRetry); [lia|].
    destruct (exec tries c _) as [[[[] c1]|msg] st1] eqn:Hexec; [| |discriminate].
    + intros [= <- <- <-].
      destruct (exec_hit _ _ _ _ _ Hexec) as (evs & Htr & Hr & Ht). simpl in Htr.
      exists (EvTick interval :: evs).
      split; [by rewrite Htr, <- app_assoc|].
      change (EvTick interval :: evs) with ([EvTick interval] ++ evs).
      rewrite tickCount_app, rescanCount_app, Hr, Ht. simpl.
      repeat split; try done; lia.
    + intros Hloop.
      destruct (exec_failed _ _ _ _ _ Hexec) as (-> & evs & Htr & Hr & Ht).
      simpl in Htr.
      destruct (IH fuel (tries + 1) c st1 st' b c' ltac:(lia) ltac:(lia) Hloop)
        as (evs' & Htr' & Hcount & Hhit & Hfail).
      exists ((EvTick interval :: evs) ++ evs').
      split; [by rewrite Htr', Htr, <- !app_assoc|].
      change (EvTick interval :: evs) with ([EvTick interval] ++ evs).
      rewrite !tickCount_app, !rescanCount_app, Hr, Ht, Hcount. simpl.
      split; [lia|]. split; [intros Hb; specialize (Hhit Hb); lia|].
      intros Hb. destruct (Hfail Hb) as [-> ->]. done.
Qed.

(** Over the whole of [RunWithRetry]: as many waits as rescans; a run
    that gives up has rescanned once per attempt, a run that succeeds
    fewer times. *)
Lemma RunWithRetry_counts c (st st' : St W) b c' :
  1 <= maxRetry ->
  RunWithRetry os maxRetry interval exec c st = (Ret (b, c'), st') ->
  exists evs,
    trace st' = trace st ++ evs /\
    tickCount evs = rescanCount evs /\
    (b = true -> (rescanCount evs < Z.to_nat maxRetry)%nat) /\
    (b = false -> rescanCount evs = Z.to_nat maxRetry /\ c' = c).
Proof.
  intros Hmax. unfold RunWithRetry. munfold.
  destruct (exec 1 c st) as [[[[] c1]|msg] st1] eqn:Hexec; [| |discriminate].
  - intros [= <- <- <-].
    destruct (exec_hit _ _ _ _ _ Hexec) as (evs & Htr & Hr & Ht).
    exists evs. rewrite Hr, Ht. repeat split; try done; lia.
  - intros Hloop.
    destruct (exec_failed _ _ _ _ _ Hexec) as (-> & evs & Htr & Hr & Ht).
    destruct (retryLoop_counts (Z.to_nat (maxRetry - 1)) (Z.to_nat maxRetry) 1
                c st1 st' b c' eq_refl ltac:(lia) Hloop)
      as (evs' & Htr' & Hcount & Hhit & Hfail).
    exists (evs ++ evs').
    split; [by rewrite Htr', Htr, <- app_assoc|].
    rewrite tickCount_app, rescanCount_app, Hr, Ht, Hcount.
    split; [lia|]. split; [intros Hb; specialize (Hhit Hb); lia|].
    intros Hb. destruct (Hfail Hb) as [-> ->]. split; [lia | done].
Qed.

End RetryCounts.

Section ConnectVolumePolling.
Context {W : Type} (os : OS W).
Variables (connectionProperties connProperties : gmap string value)
          (hbas : list HBA) (hostDevices : list string) (st0 st5 : St W).
Hypothesis reaches :
  reachesPolling os connectionProperties st0 connProperties hbas hostDevices st5.

(** [ConnectVolume] from its retry loop on. *)
Lemma ConnectVolume_from_polling :
  ConnectVolume os connectionProperties st0
  = ('(found, (hostDevice, deviceName)) ←
       RunWithRetry os DeviceScanAttemptsDefault 5
         (pollHostDevices os hbas connProperties hostDevices)
         (EmptyString, EmptyString);
     if negb found
     then mret (None, Some (Errorf "fibre Channel volume device not found"))
     else
       '(deviceWwn, err) ← GetSCSIWWN os hostDevice;
       match err with
       | Some e => mret (None, Some e)
       | None =>
           let deviceInfo : gmap string string :=
             <["scsi_wwn" := deviceWwn]> {["type" := "block"]} in
           if useMultipathOf connProperties then
             '(devicePath, multipathId, err) ←
               discoverMPathDevice os deviceWwn connProperties deviceName;
             match err with
             | Some e => mret (None, Some e)
             | None =>
                 let deviceInfo :=
                   if negb (String.eqb multipathId "")
                   then <["multipath_id" := multipathId]> deviceInfo
                   else deviceInfo in
                 mret (Some (<["path" := devicePath]> deviceInfo), None)
             end
           else mret (Some (<["path" := hostDevice]> deviceInfo), None)
       end) st5.
Proof.
  destruct reaches as (arg & targets & st1 & st2 & Hnorm & Hhbas & Hne & Htargets
                       & Hpaths & ->).
  unfold ConnectVolume. rewrite Hnorm. munfold. simpl.
  rewrite Hhbas. simpl.
  destruct hbas as [|hba hbas']; [done|]. simpl.
  unfold targetsOf. simpl. rewrite Htargets. munfold. simpl.
  rewrite Hpaths. simpl. reflexivity.
Qed.

Lemma ConnectVolume_exhausted c (st6 : St W) :
  RunWithRetry os DeviceScanAttemptsDefault 5
    (pollHostDevices os hbas connProperties hostDevices)
    (EmptyString, EmptyString) st5 = (Ret (false, c), st6) ->
  ConnectVolume os connectionProperties st0
  = (Ret (None, Some (Errorf "fibre Channel volume device not found")), st6).
Proof.
  intros Hrun. rewrite ConnectVolume_from_polling. munfold. rewrite Hrun.
  destruct c. reflexivity.
Qed.

Lemma ConnectVolume_found dev name (st6 st7 : St W) wwn :
  RunWithRetry os DeviceScanAttemptsDefault 5
    (pollHostDevices os hbas connProperties hostDevices)
    (EmptyString, EmptyString) st5 = (Ret (true, (dev, name)), st6) ->
  GetSCSIWWN os dev st6 = (Ret (wwn, None), st7) ->
  (useMultipathOf connProperties = false ->
   ConnectVolume os connectionProperties st0
   = (Ret (Some (<["path" := dev]> (<["scsi_wwn" := wwn]> {["type" := "block"]})), None),
      st7)) /\
  (useMultipathOf connProperties = true ->
   forall path id (st8 : St W),
     discoverMPathDevice os wwn connProperties name st7
       = (Ret (path, id, None), st8) ->
     ConnectVolume os connectionProperties st0
     = (Ret (Some (<["path" := path]>
                     (if negb (String.eqb id EmptyString)
                      then <["multipath_id" := id]>
                             (<["scsi_wwn" := wwn]> {["type" := "block"]})
                      else <["scsi_wwn" := wwn]> {["type" := "block"]})), None),
        st8)).
Proof.
  intros Hrun Hwwn. split.
  - intros Hum. rewrite ConnectVolume_from_polling. munfold.
    rewrite Hrun. simpl. rewrite Hwwn, Hum. reflexivity.
  - intros Hum path id st8 Hdisc.
    rewrite ConnectVolume_from_polling. munfold.
    rewrite Hrun. simpl. rewrite Hwwn, Hum, Hdisc. reflexivity.
Qed.

(** The loop is three attempts, each followed by a rescan and a wait when
    it finds nothing. *)
Lemma connect_poll_shape captured (st : St W) :
  RunWithRetry os DeviceScanAttemptsDefault 5
    (pollHostDevices os hbas connProperties hostDevices) captured st
  = pollThrice os hbas connProperties hostDevices captured st.
Proof.
  unfold RunWithRetry, pollThrice, pollHostDevices, DeviceScanAttemptsDefault.
  change (Z.to_nat 3) with 3%nat. unfold retryLoop. munfold. simpl.
  destruct (scanHostDevices os hostDevices st) as [[[[]|f1]|m1] st1]; try reflexivity.
  destruct (RescanHosts os hbas connProperties st1) as [[[]|m2] st2]; try reflexivity.
  simpl.
  destruct (scanHostDevices os hostDevices _) as [[[[]|f3]|m3] st3]; try reflexivity.
  destruct (RescanHosts os hbas connProperties st3) as [[[]|m4] st4]; try reflexivity.
  simpl.
  destruct (scanHostDevices os hostDevices _) as [[[[]|f5]|m5] st5']; try reflexivity.
  destruct (RescanHosts os hbas connProperties st5') as [[[]|m6] st6]; reflexivity.
Qed.

End ConnectVolumePolling.

(** C7, as amended: the retry loop of [ConnectVolume] makes at most three
    attempts; an attempt checks the candidates in order for existence and
    raw-read validity and ends at the first valid one; only an attempt
    that found none is followed by a rescan and then a wait, also the
    last attempt, and nothing is rescanned before the first.  A candidate
    found on the first attempt ends the loop with zero rescans, and
    [ConnectVolume] returns a DeviceInfo for it once its WWN is resolved
    (and multipath discovery has returned, when multipath is requested);
    when all attempts are used up, after three rescans, the result is the
    device-not-found error. *)
Theorem connect_polling {W : Type} (os : OS W)
    (connectionProperties connProperties : gmap string value)
    (hbas : list HBA) (hostDevices : list string) (st0 st5 : St W) :
  reachesPolling os connectionProperties st0 connProperties hbas hostDevices st5 ->
  let poll :=
    RunWithRetry os DeviceScanAttemptsDefault 5
      (pollHostDevices os hbas connProperties hostDevices)
      (EmptyString, EmptyString) in
  poll st5 = pollThrice os hbas connProperties hostDevices (EmptyString, EmptyString) st5 /\
  (forall dev name st6,
     scanHostDevices os hostDevices st5 = (Ret (inr (dev, name)), st6) ->
     poll st5 = (Ret (true, (dev, name)), st6) /\
     (exists evs, trace st6 = trace st5 ++ evs /\
                  rescanCount evs = O /\ tickCount evs = O) /\
     forall wwn st7,
       GetSCSIWWN os dev st6 = (Ret (wwn, None), st7) ->
       (useMultipathOf connProperties = false ->
        ConnectVolume os connectionProperties st0
        = (Ret (Some (<["path" := dev]> (<["scsi_wwn" := wwn]> {["type" := "block"]})),
                None), st7)) /\
       (useMultipathOf connProperties = true ->
        forall path id st8,
          discoverMPathDevice os wwn connProperties name st7
            = (Ret (path, id, None), st8) ->
          ConnectVolume os connectionProperties st0
          = (Ret (Some (<["path" := path]>
                          (if negb (String.eqb id EmptyString)
                           then <["multipath_id" := id]>
                                  (<["scsi_wwn" := wwn]> {["type" := "block"]})
                           else <["scsi_wwn" := wwn]> {["type" := "block"]})), None),
             st8))) /\
  (forall b c st6,
     poll st5 = (Ret (b, c), st6) ->
     exists evs,
       trace st6 = trace st5 ++ evs /\
       tickCount evs = rescanCount evs /\
       (b = true -> (rescanCount evs <= 2)%nat) /\
       (b = false -> rescanCount evs = 3%nat)) /\
  (forall c st6,
     poll st5 = (Ret (false, c), st6) ->
     ConnectVolume os connectionProperties st0
     = (Ret (None, Some (Errorf "fibre Channel volume device not found")), st6)).
Proof.
  intros Hreach poll. split; [apply connect_poll_shape|]. split; [|split].
  - intros dev name st6 Hscan.
    assert (Hpoll : poll st5 = (Ret (true, (dev, name)), st6)).
    { unfold poll, RunWithRetry. munfold.
      by rewrite (poll_scan_hit os hbas connProperties hostDevices 1 _ _ _ _ Hscan). }
    split; [exact Hpoll|]. split.
    + destruct (quiet_run plainEvent _ _ _ _ (quiet_scanHostDevices os hostDevices) Hscan)
        as (evs & Htr & HP).
      exists evs. by apply plain_counts in HP as [? ?].
    + intros wwn st7 Hwwn.
      by apply (ConnectVolume_found os _ _ _ _ _ _ Hreach dev name st6 st7 wwn).
  - intros b c st6 Hpoll.
    destruct (RunWithRetry_counts os DeviceScanAttemptsDefault 5
                (pollHostDevices os hbas connProperties hostDevices)
                (poll_failed os hbas connProperties hostDevices)
                (fun n c st st' c' H =>
                   proj2 (poll_hit os hbas connProperties hostDevices n c st st' c' H))
                _ _ _ _ _ ltac:(done) Hpoll) as (evs & Htr & Hcount & Hhit & Hfail).
    exists evs. split; [done|]. split; [done|]. split.
    + intros Hb. specialize (Hhit Hb). change (Z.to_nat DeviceScanAttemptsDefault) with 3%nat in Hhit. lia.
    + intros Hb. by destruct (Hfail Hb).
  - intros c st6 Hpoll. by eapply ConnectVolume_exhausted.
Qed.

(** The normalizer returns the map it was given, or nil with the
    validation error. *)
Lemma addTargets_returns cp n :
  addTargetsToConnectionProperties cp = Ret n ->
  (n_err n = None /\ n_ret n = Some (n_arg n)) \/
  (n_err n = Some cardinalityError /\ n_ret n = None).
Proof.
  unfold addTargetsToConnectionProperties.
  destruct (descriptorWwns cp) as [wwns|]; [|discriminate].
  destruct (descriptorLuns _) as [luns|]; [|discriminate].
  destruct (pairTargets wwns luns) as [[targets|]|msg]; [| |discriminate];
    intros [= <-]; [left | right]; done.
Qed.

(** A run that returned without an error, split into its parts. *)
Lemma run_ok_parts {A} (r : outcome (A * option error) * St nat) (d : A) :
  match r.1 with Ret (_, None) => true | _ => false end = true ->
  r = (Ret (match r.1 with Ret (a, _) => a | Panic _ => d end, None), r.2).
Proof. destruct r as [[[a [e|]]|msg] st]; simpl; intros H; by inversion H. Qed.

Lemma plainHost_reaches_polling :
  reachesPolling Scenario.plainHost Scenario.descriptorNoMultipath st0
    Scenario.normalizedNoMultipath Scenario.hbasFound
    Scenario.allCandidates Scenario.pollingState.
Proof.
  exists Scenario.normalizedNoMultipath, Scenario.targetsFound,
         Scenario.afterHBAs.2, Scenario.afterPaths.2.
  split.
  { unfold Scenario.normalizedNoMultipath.
    assert (Herr : match addTargetsToConnectionProperties Scenario.descriptorNoMultipath with
                   | Ret n => match n_err n with None => true | Some _ => false end
                   | Panic _ => false
                   end = true) by (vm_compute; reflexivity).
    destruct (addTargetsToConnectionProperties Scenario.descriptorNoMultipath)
      as [n|msg] eqn:Hn; [|discriminate].
    destruct (addTargets_returns _ _ Hn) as [[He Hr]|[He _]];
      [|rewrite He in Herr; discriminate].
    destruct n as [arg r e]. simpl in *. by subst. }
  split.
  { apply (run_ok_parts Scenario.afterHBAs []). vm_compute. reflexivity. }
  split.
  { assert (H : (0 <? length Scenario.hbasFound)%nat = true) by (vm_compute; reflexivity).
    intros Heq. rewrite Heq in H. clear Heq. discriminate H. }
  split; [vm_compute; reflexivity|].
  split; [|reflexivity].
  assert (Hpaths : match Scenario.afterPaths.1 with
                   | Ret (paths, _) => paths
                   | Panic _ => []
                   end = Scenario.allCandidates) by (vm_compute; reflexivity).
  rewrite <- Hpaths.
  apply (run_ok_parts Scenario.afterPaths []). vm_compute. reflexivity.
Qed.

Lemma connect_polling_witness :
  ConnectVolume Scenario.plainHost Scenario.descriptorNoMultipath st0
  = (Ret (Some (<["path" := Scenario.liveCandidate]>
                  (<["scsi_wwn" := "3600508b4000156d700012000000b0000"]>
                     {["type" := "block"]})), None),
     mkSt O (trace Scenario.pollingState
             ++ [EvStat Scenario.liveCandidate;
                 EvExec "dd" ["if=" +++ Scenario.liveCandidate; "of=/dev/null"; "count=1"];
                 EvEvalSymlinks Scenario.liveCandidate;
                 EvExec "/lib/udev/scsi_id"
                   ["--page"; "0x83"; "--whitelisted"; Scenario.liveCandidate]])).
Proof.
  pose proof (connect_polling Scenario.plainHost Scenario.descriptorNoMultipath
                Scenario.normalizedNoMultipath Scenario.hbasFound
                Scenario.allCandidates st0 Scenario.pollingState
                plainHost_reaches_polling) as (_ & Hhit & _).
  destruct (Hhit Scenario.liveCandidate "/dev/sdb"
              (mkSt O (trace Scenario.pollingState
                       ++ [EvStat Scenario.liveCandidate;
                           EvExec "dd" ["if=" +++ Scenario.liveCandidate;
                                        "of=/dev/null"; "count=1"];
                           EvEvalSymlinks Scenario.liveCandidate])))
    as (_ & _ & Hconn); [vm_compute; reflexivity|].
  apply (Hconn "3600508b4000156d700012000000b0000" _); vm_compute; reflexivity.
Defined.

(** C7, the counterexample: on a host where the device never shows up
    the third attempt is followed by a third rescan, after which no
    candidate is checked any more. *)
Lemma rescan_follows_last_attempt :
  (ConnectVolume Scenario.deadHost Scenario.descriptorNoMultipath st0).1
    = Ret (None, Some (Errorf "fibre Channel volume device not found")) /\
  rescanCount (trace (ConnectVolume Scenario.deadHost Scenario.descriptorNoMultipath st0).2)
    = 3%nat /\
  match afterLastRescan
          (trace (ConnectVolume Scenario.deadHost Scenario.descriptorNoMultipath st0).2) with
  | Some after => existsb (isCandidateCheck Scenario.allCandidates) after
  | None => true
  end = false.
Proof. repeat split; vm_compute; reflexivity. Qed.

(** ** Multipath discovery in [ConnectVolume] *)

Section Discovery.
Context {W : Type} (os : OS W).

(** A miss of the symlink wait is returned as it is. *)
Lemma discoverMPathDevice_miss deviceWwn connProperties deviceName (st st' : St W) e :
  FindMultipathDevicePath os deviceWwn st = (Ret (EmptyString, Some e), st') ->
  discoverMPathDevice os deviceWwn connProperties deviceName st
  = (Ret (EmptyString, EmptyString, Some e), st').
Proof. intros H. unfold discoverMPathDevice. munfold. by rewrite H. Qed.

Lemma discoverMPathDevice_found deviceWwn connProperties deviceName
    (st st1 st' : St W) found path id :
  FindMultipathDevicePath os deviceWwn st = (Ret (found, None), st1) ->
  discoverMPathDevice os deviceWwn connProperties deviceName st
    = (Ret (path, id, None), st') ->
  path = found /\ id = deviceWwn.
Proof.
  intros Hfind. pose proof (FindMultipathDevicePath_found_nonempty os _ _ _ _ Hfind) as Hne.
  unfold discoverMPathDevice. munfold. rewrite Hfind, Hne.
  destruct (accessModeNotRO connProperties).
  - destruct (RunWithRetry os 5 1 _ tt st1) as [[[[] []]|msg] st2]; simpl;
      intros [= <- <- <-]; done.
  - intros [= <- <- <-]. done.
Qed.

(** Whatever [discoverMPathDevice] returns without an error is one of the
    two multipath paths under the WWN: the screen-scraped lookup and the
    raw device are out of reach. *)
Lemma discoverMPathDevice_no_fallback deviceWwn connProperties deviceName
    (st st' : St W) path id :
  discoverMPathDevice os deviceWwn connProperties deviceName st
    = (Ret (path, id, None), st') ->
  (path = "/dev/disk/by-id/dm-uuid-mpath-" +++ deviceWwn \/
   path = "/dev/mapper/" +++ deviceWwn) /\
  id = deviceWwn.
Proof.
  intros Hrun.
  destruct (FindMultipathDevicePath_result os deviceWwn st) as (st1 & [H|[H|H]]).
  - destruct (discoverMPathDevice_found _ _ _ _ _ _ _ _ _ H Hrun) as [-> ->]. auto.
  - destruct (discoverMPathDevice_found _ _ _ _ _ _ _ _ _ H Hrun) as [-> ->]. auto.
  - rewrite (discoverMPathDevice_miss _ connProperties deviceName _ _ _ H) in Hrun.
    discriminate.
Qed.

End Discovery.

(** C1, evaluated: a valid single-path device and no multipath symlink.
    [ConnectVolume] with multipath requested waits for the two paths,
    then returns the not-found error of [FindMultipathDevicePath]; it
    never runs [multipath -l] and never falls back to the raw device. *)
Theorem ConnectVolume_symlink_miss_aborts :
  (ConnectVolume Scenario.plainHost Scenario.descriptor st0).1
    = Ret (None, Some (Errorf "couldn't find a valid multipath device path for %s")) /\
  existsb isMultipathList
    (trace (ConnectVolume Scenario.plainHost Scenario.descriptor st0).2) = false /\
  (ConnectVolume Scenario.plainHost Scenario.descriptorNoMultipath st0).1
    = Ret (Some (<["path" := Scenario.liveCandidate]>
                   (<["scsi_wwn" := "3600508b4000156d700012000000b0000"]>
                      {["type" := "block"]})), None).
Proof. repeat split; vm_compute; reflexivity. Qed.

(** ** The flush block of [DisconnectVolume] *)

Section DisconnectLoop.
Context {W : Type} (os : OS W).

(** With no mapper path recorded a round records none, whatever
    [useMultipath] is. *)
Lemma disconnectPath_no_mapper useMultipath devices path (st : St W) :
  disconnectPath os useMultipath (EmptyString, devices) path st
  = disconnectPath os false (EmptyString, devices) path st /\
  forall m ds st',
    disconnectPath os useMultipath (EmptyString, devices) path st = (Ret (m, ds), st') ->
    m = EmptyString.
Proof.
  unfold disconnectPath. rewrite andb_false_r. simpl. split; [reflexivity|].
  munfold. intros m ds st'.
  destruct (GetNameFromPath os path st) as [[realPath|msg] st1]; [|discriminate].
  destruct (GetDeviceInfo os realPath st1) as [[[di [e|]]|msg] st2]; simpl;
    intros [= <- <- <-]; reflexivity.
Qed.

(** The loop starts with no mapper path, so it never gets one: it runs
    as if multipath were switched off. *)
Lemma disconnect_loop_ignores_multipath useMultipath volumePaths :
  forall devices (st : St W),
    forRange volumePaths (EmptyString, devices) (disconnectPath os useMultipath) st
    = forRange volumePaths (EmptyString, devices) (disconnectPath os false) st.
Proof.
  induction volumePaths as [|path rest IH]; intros devices st; [reflexivity|].
  change (bind (disconnectPath os useMultipath (EmptyString, devices) path)
            (fun s' => forRange rest s' (disconnectPath os useMultipath)) st
          = bind (disconnectPath os false (EmptyString, devices) path)
              (fun s' => forRange rest s' (disconnectPath os false)) st).
  unfold bind.
  destruct (disconnectPath_no_mapper useMultipath devices path st) as [Heq Hm].
  rewrite Heq in *.
  destruct (disconnectPath os false (EmptyString, devices) path st)
    as [[[m ds]|msg] st1]; [|reflexivity].
  rewrite (Hm m ds st1 eq_refl). apply IH.
Qed.

End DisconnectLoop.

(** C2, evaluated: multipath enabled, one live candidate whose raw device
    reads fine and whose multipath map exists.  [DisconnectVolume] removes
    the device without reading it, without resolving its WWN and without
    flushing the multipath map. *)
Theorem DisconnectVolume_never_flushes :
  (DisconnectVolume Scenario.mpathHost Scenario.descriptor None st0).1 = Ret None /\
  existsb isFlushBlockEvent
    (trace (DisconnectVolume Scenario.mpathHost Scenario.descriptor None st0).2) = false /\
  List.filter (fun e => match e with EvExec _ _ => true | _ => false end)
    (trace (DisconnectVolume Scenario.mpathHost Scenario.descriptor None st0).2)
  = [EvExec "systool" ["-c"; "fc_host"; "-v"];
     EvExec "sg_scan" ["/dev/sdb"];
     EvExec "sh" ["-c"; "echo '1' > /sys/block/sdb/device/delete"]].
Proof. repeat split; vm_compute; reflexivity. Qed.

(** ** Rescans *)

(** C6, evaluated: two adapters, each seeing its own target port.  The
    triple of the first adapter is written twice.  When only the second
    adapter sees a port, the first one still gets its wildcard scan, twice;
    when none does, only the first adapter is scanned with wildcards. *)
Theorem RescanHosts_repeats_scans :
  scanWrites (trace (RescanHosts Scenario.plainHost Scenario.hbasFound
                       Scenario.normalizedNoMultipath st0).2)
  = ["echo '0 0 1' > /sys/class/scsi_host/host6/scan";
     "echo '0 0 1' > /sys/class/scsi_host/host6/scan";
     "echo '0 1 1' > /sys/class/scsi_host/host7/scan"] /\
  scanWrites (trace (RescanHosts halfZonedHost Scenario.hbasFound
                       Scenario.normalizedNoMultipath st0).2)
  = ["echo '- - 1' > /sys/class/scsi_host/host6/scan";
     "echo '- - 1' > /sys/class/scsi_host/host6/scan";
     "echo '0 1 1' > /sys/class/scsi_host/host7/scan"] /\
  scanWrites (trace (RescanHosts unzonedHost Scenario.hbasFound
                       Scenario.normalizedNoMultipath st0).2)
  = ["echo '- - 1' > /sys/class/scsi_host/host6/scan";
     "echo '- - 1' > /sys/class/scsi_host/host6/scan"].
Proof. repeat split; vm_compute; reflexivity. Qed.
